(** * SNMP trap input plugin (plugins/inputs/snmp_trap/snmp_trap.go)

    A shallow embedding of the trap handler, the OID cache with its
    external translation, and the start-up validation of the listener,
    followed by the properties proved about them.

    Go strings and byte slices are sequences of bytes: both are modelled as
    [string] (a list of 8-bit characters).  Go's [int] is modelled as [Z].
    Maps keyed by strings are [gmap string _]. *)

From Stdlib Require Import ZArith Ascii String List Lia.
From Stdlib Require Import Numbers.DecimalString Numbers.DecimalZ.
From stdpp Require Import base option gmap strings list.

Local Open Scope string_scope.
Local Open Scope Z_scope.

(** ** Go standard library: package strings and strconv *)

Module Strings.

(** [len(s)] as a Go [int]. *)
Definition len (s : string) : Z := Z.of_nat (String.length s).

(** [strings.HasPrefix(s, prefix)]. *)
Fixpoint HasPrefix (s prefix : string) {struct prefix} : bool :=
  match prefix with
  | EmptyString => true
  | String c prefix' =>
      match s with
      | EmptyString => false
      | String d s' => if Ascii.eqb c d then HasPrefix s' prefix' else false
      end
  end.

(** Position of the first instance of [substr] in [s], if any. *)
Fixpoint indexNat (s substr : string) : option nat :=
  if HasPrefix s substr then Some O
  else match s with
       | EmptyString => None
       | String _ s' => S <$> indexNat s' substr
       end.

(** [strings.Index(s, substr)]: the index of the first instance of
    [substr] in [s], or -1 when [substr] is not present. *)
Definition Index (s substr : string) : Z :=
  match indexNat s substr with
  | Some i => Z.of_nat i
  | None => -1
  end.

(** The first [n] bytes of [s], and [s] without them. *)
Fixpoint take (n : nat) (s : string) : string :=
  match n, s with
  | S n', String c s' => String c (take n' s')
  | _, _ => EmptyString
  end.

Fixpoint drop (n : nat) (s : string) : string :=
  match n, s with
  | S n', String _ s' => drop n' s'
  | _, _ => s
  end.

(** The slice expressions [s[:i]] and [s[i:]].  Go panics when [i] is out
    of range; every use below is guarded by a successful [Index]. *)
Definition sliceTo (s : string) (i : Z) : string := take (Z.to_nat i) s.
Definition sliceFrom (s : string) (i : Z) : string := drop (Z.to_nat i) s.

(** The loop of [genSplit] for a non-empty separator: at most [n] further
    cuts, the rest of the string is the last element. *)
Fixpoint splitLoop (n : nat) (s sep : string) : list string :=
  match n with
  | O => [s]
  | S n' =>
      let m := Index s sep in
      if m <? 0 then [s]
      else sliceTo s m :: splitLoop n' (sliceFrom s (m + len sep)) sep
  end.

(** [strings.SplitN(s, sep, n)] for a non-empty [sep] and [n > 0]: the
    count is first capped by [len(s) + 1], then [n - 1] cuts are tried. *)
Definition SplitN (s sep : string) (n : Z) : list string :=
  let n := if len s + 1 <? n then len s + 1 else n in
  splitLoop (Z.to_nat (n - 1)) s sep.

(** Lower-casing of one ASCII byte; every other byte is left alone. *)
Definition lowerByte (c : ascii) : ascii :=
  let n := N_of_ascii c in
  if ((65 <=? n) && (n <=? 90))%N then ascii_of_N (n + 32) else c.

(** [strings.ToLower] on strings made of ASCII bytes (Go's fast path). *)
Fixpoint ToLowerASCII (s : string) : string :=
  match s with
  | EmptyString => EmptyString
  | String c s' => String (lowerByte c) (ToLowerASCII s')
  end.

End Strings.

Module Strconv.

(** [strconv.Itoa(i)]: the base 10 rendering of [i], with a leading minus
    sign for negative numbers. *)
Definition Itoa (i : Z) : string := NilZero.string_of_int (Z.to_int i).

End Strconv.

(** Go's [int] is 64 bits wide; [x + y] wraps around. *)
Definition wrapInt (x : Z) : Z := (x + 2 ^ 63) mod 2 ^ 64 - 2 ^ 63.
Definition intAdd (x y : Z) : Z := wrapInt (x + y).

(** ** Go standard library: bufio.Scanner over a bytes.Buffer *)

Module Bufio.

Definition MaxScanTokenSize : Z := 64 * 1024.

Definition newline : ascii := "010"%char.
Definition carriageReturn : ascii := "013"%char.

(** [bytes.IndexByte(data, c)] as an optional position. *)
Fixpoint indexByte (data : string) (c : ascii) : option nat :=
  match data with
  | EmptyString => None
  | String d data' =>
      if Ascii.eqb d c then Some O else S <$> indexByte data' c
  end.

(** [dropCR]: a terminal carriage return is removed from the token. *)
Fixpoint dropCR (data : string) : string :=
  match data with
  | EmptyString => EmptyString
  | String c EmptyString =>
      if Ascii.eqb c carriageReturn then EmptyString else data
  | String c data' => String c (dropCR data')
  end.

(** What the first [Scan()] of a default scanner (split function
    [ScanLines], token limit [MaxScanTokenSize]) leaves behind when reading
    from a buffer holding [out]:
    - [ScanToken tok]: [Scan] returned true and [Text()] is [tok];
    - [ScanEOF]: no token, [Scan] returned false and [Err()] is nil;
    - [ScanErr msg]: [Scan] returned false and [Err()] is not nil. *)
Inductive ScanResult :=
| ScanToken (tok : string)
| ScanEOF
| ScanErr (msg : string).

Definition ErrTooLong : string := "bufio.Scanner: token too long".

(** The scanner doubles its buffer up to [MaxScanTokenSize] bytes while the
    split function asks for more data.  A line feed among the bytes held
    ends the token.  When the buffer is full at its maximal size and holds
    no line feed, the scan stops with [ErrTooLong]; when the input ends
    before that, the remaining bytes are the token. *)
Definition Scan (out : string) : ScanResult :=
  match indexByte out newline with
  | Some i =>
      if Z.of_nat i <? MaxScanTokenSize then ScanToken (dropCR (Strings.take i out))
      else ScanErr ErrTooLong
  | None =>
      if Strings.len out =? 0 then ScanEOF
      else if Strings.len out <? MaxScanTokenSize then ScanToken (dropCR out)
      else ScanErr ErrTooLong
  end.

End Bufio.

(** ** gosnmp data *)

(** [gosnmp.SnmpVersion] and its [String()] method. *)
Inductive SnmpVersion := Version1 | Version2c | Version3.

Definition SnmpVersion_String (v : SnmpVersion) : string :=
  match v with
  | Version1 => "1"
  | Version2c => "2c"
  | Version3 => "3"
  end.

(** [gosnmp.Asn1BER] is a byte naming the type of a variable. *)
Definition Asn1BER := Z.
Definition Integer : Asn1BER := 0x02.
Definition OctetString : Asn1BER := 0x04.
Definition ObjectIdentifier : Asn1BER := 0x06.
Definition TimeTicks : Asn1BER := 0x43.

(** The dynamic value an [interface{}] holds in a decoded variable. *)
Inductive GoValue :=
| VNil
| VInt (n : Z)
| VUint (n : Z)
| VString (s : string)
| VBytes (b : string).

(** [fmt.Sprintf("%v", v)]: the default rendering of a value. *)
Definition renderBytes (b : string) : string :=
  "[" +:+ String.concat " " (map (fun c => Strconv.Itoa (Z.of_N (N_of_ascii c))) (list_ascii_of_string b)) +:+ "]".

Definition Sprintf_v (v : GoValue) : string :=
  match v with
  | VNil => "<nil>"
  | VInt n => Strconv.Itoa n
  | VUint n => Strconv.Itoa n
  | VString s => s
  | VBytes b => renderBytes b
  end.

(** [gosnmp.SnmpPDU]; the field [Type] is spelt [Type_]. *)
Record SnmpPDU := mkPDU {
  Name : string;
  Type_ : Asn1BER;
  Value : GoValue
}.

(** [gosnmp.SnmpPacket], the fields the handler reads; its [Version] is
    spelt [PacketVersion], [Timestamp] is a Go [uint]. *)
Record SnmpPacket := mkPacket {
  PacketVersion : SnmpVersion;
  Variables : list SnmpPDU;
  Enterprise : string;
  AgentAddress : string;
  GenericTrap : Z;
  SpecificTrap : Z;
  Timestamp : Z
}.

(** [gosnmp.SnmpV3MsgFlags], [SnmpV3AuthProtocol], [SnmpV3PrivProtocol] *)
Inductive SnmpV3MsgFlags := NoAuthNoPriv | AuthNoPriv | AuthPriv.
Inductive SnmpV3AuthProtocol := NoAuth | MD5 | SHA.
Inductive SnmpV3PrivProtocol := NoPriv | DES | AES | AES192 | AES256 | AES192C | AES256C.
Inductive SnmpV3SecurityModel := NoSecurityModel | UserSecurityModel.

Record UsmSecurityParameters := mkUsm {
  UserName : string;
  AuthenticationProtocol : SnmpV3AuthProtocol;
  PrivacyProtocol : SnmpV3PrivProtocol;
  AuthenticationPassphrase : string;
  PrivacyPassphrase : string
}.

(** [gosnmp.GoSNMP], the fields [Start] writes; its [Version] is spelt
    [ParamsVersion]. *)
Record GoSNMP := mkGoSNMP {
  ParamsVersion : SnmpVersion;
  MsgFlags : SnmpV3MsgFlags;
  SecurityModel : SnmpV3SecurityModel;
  SecurityParameters : option UsmSecurityParameters
}.

(** [gosnmp.Default] as the package initialises it.  In gosnmp it is a
    pointer to one [GoSNMP] that the whole process shares. *)
Definition Default : GoSNMP :=
  {| ParamsVersion := Version2c; MsgFlags := NoAuthNoPriv;
     SecurityModel := NoSecurityModel; SecurityParameters := None |}.

(** ** The plugin's own data *)

(** A Go [error] is represented by its message. *)
Definition error := string.

Record mibEntry := mkMibEntry {
  mibName : string;
  oidText : string
}.

(** The zero value of [mibEntry]. *)
Definition zeroEntry : mibEntry := {| mibName := ""; oidText := "" |}.

(** Values stored in the [fields] map: the uint time stamp of a v1 trap and
    the int constant 1. *)
Inductive FieldValue := FUint (n : Z) | FInt (n : Z).

Definition Time := Z.

(** One call of [acc.AddFields(measurement, fields, tags, t)]. *)
Record Metric := mkMetric {
  measurement : string;
  metricFields : gmap string FieldValue;
  metricTags : gmap string string;
  metricTime : Time
}.

(** One call of the logger: level, format string and arguments. *)
Inductive LogLevel := LevelError | LevelInfo.
Inductive LogArg := ArgError (e : error) | ArgString (s : string) | ArgPacket (p : SnmpPacket).
Record LogLine := mkLogLine {
  logLevel : LogLevel;
  logFormat : string;
  logArgs : list LogArg
}.

(** One call of [s.execCmd(timeout, arg0, args...)]. *)
Record ExecCall := mkExecCall {
  callTimeout : Z;
  callArg0 : string;
  callArgs : list string
}.

(** The [SnmpTrap] struct.  The collaborators are represented by what they
    have received so far: [acc] by the metrics added, [Log] by the lines
    logged, [execCalls] by the calls made through [execCmd], and
    [listenCalls] by the addresses [listener.Listen] was started on. *)
Record SnmpTrap := mkSnmpTrap {
  ServiceAddress : string;
  Timeout : Z;
  Version : string;
  SecLevel : string;
  SecName : string;
  AuthProtocol : string;
  AuthPassword : string;
  PrivProtocol : string;
  PrivPassword : string;
  acc : list Metric;
  listener : option GoSNMP;
  Log : list LogLine;
  cache : gmap string mibEntry;
  execCalls : list ExecCall;
  listenCalls : list string
}.

Definition withRuntime (s : SnmpTrap) (acc' : list Metric) (listener' : option GoSNMP)
    (Log' : list LogLine) (cache' : gmap string mibEntry)
    (execCalls' : list ExecCall) (listenCalls' : list string) : SnmpTrap :=
  {| ServiceAddress := ServiceAddress s; Timeout := Timeout s; Version := Version s;
     SecLevel := SecLevel s; SecName := SecName s;
     AuthProtocol := AuthProtocol s; AuthPassword := AuthPassword s;
     PrivProtocol := PrivProtocol s; PrivPassword := PrivPassword s;
     acc := acc'; listener := listener'; Log := Log'; cache := cache';
     execCalls := execCalls'; listenCalls := listenCalls' |}.

Definition setCache (m : gmap string mibEntry) (s : SnmpTrap) : SnmpTrap :=
  withRuntime s (acc s) (listener s) (Log s) m (execCalls s) (listenCalls s).
Definition setListener (p : GoSNMP) (s : SnmpTrap) : SnmpTrap :=
  withRuntime s (acc s) (Some p) (Log s) (cache s) (execCalls s) (listenCalls s).
Definition logLine (l : LogLine) (s : SnmpTrap) : SnmpTrap :=
  withRuntime s (acc s) (listener s) (Log s ++ [l]) (cache s) (execCalls s) (listenCalls s).
Definition recordExec (c : ExecCall) (s : SnmpTrap) : SnmpTrap :=
  withRuntime s (acc s) (listener s) (Log s) (cache s) (execCalls s ++ [c]) (listenCalls s).
Definition recordListen (addr : string) (s : SnmpTrap) : SnmpTrap :=
  withRuntime s (acc s) (listener s) (Log s) (cache s) (execCalls s) (listenCalls s ++ [addr]).

(** [s.Log.Errorf(format, args...)] and [s.Log.Infof(format, args...)] *)
Definition Errorf (format : string) (args : list LogArg) (s : SnmpTrap) : SnmpTrap :=
  logLine {| logLevel := LevelError; logFormat := format; logArgs := args |} s.
Definition Infof (format : string) (args : list LogArg) (s : SnmpTrap) : SnmpTrap :=
  logLine {| logLevel := LevelInfo; logFormat := format; logArgs := args |} s.

(** [s.acc.AddFields(measurement, fields, tags, t)] *)
Definition AddFields (name : string) (fields : gmap string FieldValue)
    (tags : gmap string string) (t : Time) (s : SnmpTrap) : SnmpTrap :=
  withRuntime s
    (acc s ++ [{| measurement := name; metricFields := fields; metricTags := tags; metricTime := t |}])
    (listener s) (Log s) (cache s) (execCalls s) (listenCalls s).

(** [Init], [clear] and [load] *)
Definition Init (s : SnmpTrap) : SnmpTrap := setCache ∅ s.
Definition clear (s : SnmpTrap) : SnmpTrap := setCache ∅ s.
Definition load (oid : string) (e : mibEntry) (s : SnmpTrap) : SnmpTrap :=
  setCache (<[oid := e]> (cache s)) s.

(** ** Control flow of the handler

    The handler leaves its loop by [return] or by a panic; a step that does
    neither hands its result on. *)
Inductive Flow (A : Type) :=
| Next (a : A)
| Return
| Panic (msg : string).
Arguments Next {A} a.
Arguments Return {A}.
Arguments Panic {A} msg.

(** Well-known object identifiers the handler compares with. *)
Definition sysUpTimeOid : string := ".1.3.6.1.2.1.1.3.0".
Definition snmpTrapOid : string := ".1.3.6.1.6.3.1.1.4.1.0".

(** [setTrapOid] *)
Definition setTrapOid (tags : gmap string string) (oid : string) (e : mibEntry)
    : gmap string string :=
  <["mib" := mibName e]> (<["name" := oidText e]> (<["oid" := oid]> tags)).

(** The canonical trap OID of a v1 packet (the assignment to [trapOid] in
    [makeTrapHandler]); the empty string when none is derived. *)
Definition v1TrapOid (packet : SnmpPacket) : string :=
  if (0 <=? GenericTrap packet) && (GenericTrap packet <? 6) then
    ".1.3.6.1.6.3.1.1.5." +:+ Strconv.Itoa (intAdd (GenericTrap packet) 1)
  else if GenericTrap packet =? 6 then
    Enterprise packet +:+ ".0." +:+ Strconv.Itoa (SpecificTrap packet)
  else "".

(** The call [snmptranslate] makes for an OID. *)
Definition translateCall (oid : string) (s : SnmpTrap) : ExecCall :=
  {| callTimeout := Timeout s; callArg0 := "snmptranslate";
     callArgs := ["-Td"; "-Ob"; "-m"; "all"; oid] |}.

Section Handler.

(** The [execCmd] field.  The external program may answer differently each
    time it runs, so its answer also depends on how many calls were made
    before: [execCmd n timeout arg0 args] is the pair [(out, err)] the
    call number [n] returns. *)
Variable execCmd : nat -> Z -> string -> list string -> string * option error.

(** [snmptranslate] *)
Definition snmptranslate (oid : string) (s : SnmpTrap)
    : (mibEntry * option error) * SnmpTrap :=
  let args := ["-Td"; "-Ob"; "-m"; "all"; oid] in
  let '(out, err) := execCmd (length (execCalls s)) (Timeout s) "snmptranslate" args in
  let s := recordExec (translateCall oid s) s in
  match err with
  | Some err => ((zeroEntry, Some err), s)
  | None =>
      match Bufio.Scan out with
      | Bufio.ScanErr msg => ((zeroEntry, Some ("scaner: " +:+ msg)), s)
      | scanned =>
          let text := match scanned with Bufio.ScanToken tok => tok | _ => "" end in
          let i := Strings.Index text "::" in
          if i =? -1 then (({| mibName := ""; oidText := text |}, Some "not found"), s)
          else (({| mibName := Strings.sliceTo text i;
                    oidText := Strings.sliceFrom text (i + 2) |}, None), s)
      end
  end.

(** [lookup], run as one step under [cacheLock]. *)
Definition lookup (oid : string) (s : SnmpTrap)
    : (mibEntry * option error) * SnmpTrap :=
  match cache s !! oid with
  | None =>
      let '((e, err), s) := snmptranslate oid s in
      match err with
      | None => ((e, None), setCache (<[oid := e]> (cache s)) s)
      | Some _ => ((e, err), s)
      end
  | Some e => ((e, None), s)
  end.

(** The v1 part of the handler (RFC 2576 3.1), from the test on the packet
    version to the assignment of [sysUpTimeInstance]. *)
Definition translateV1 (packet : SnmpPacket) (fields : gmap string FieldValue)
    (tags : gmap string string) (s : SnmpTrap)
    : Flow (gmap string FieldValue * gmap string string) * SnmpTrap :=
  match PacketVersion packet with
  | Version1 =>
      let trapOid := v1TrapOid packet in
      let resolved :=
        if negb (String.eqb trapOid "") then
          match lookup trapOid s with
          | ((e, Some err), s) =>
              (Return, Errorf "Error resolving V1 OID: %v" [ArgError err] s)
          | ((e, None), s) => (Next (setTrapOid tags trapOid e), s)
          end
        else (Next tags, s) in
      match resolved with
      | (Next tags, s) =>
          let tags :=
            if negb (String.eqb (AgentAddress packet) "") then
              <["agent_address" := AgentAddress packet]> tags
            else tags in
          (Next (<["sysUpTimeInstance" := FUint (Timestamp packet)]> fields, tags), s)
      | (Return, s) => (Return, s)
      | (Panic msg, s) => (Panic msg, s)
      end
  | _ => (Next (fields, tags), s)
  end.

(** The body of the loop over [packet.Variables] for one variable [v]. *)
Definition walkVariable (v : SnmpPDU) (metricName : string)
    (tags : gmap string string) (s : SnmpTrap)
    : Flow (string * gmap string string) * SnmpTrap :=
  if String.eqb (Name v) sysUpTimeOid then (Next (metricName, tags), s)
  else if Type_ v =? ObjectIdentifier then
    match Value v with
    | VString val =>
        match lookup val s with
        | ((e, Some err), s) => (Return, Errorf "resolving value OID: %s" [ArgError err] s)
        | ((e, None), s) =>
            if String.eqb (Name v) snmpTrapOid && String.eqb metricName "" then
              (Next (oidText e, <["mib" := mibName e]> (<["oid" := val]> tags)), s)
            else
              (Next (metricName,
                     <["mib" := mibName e]> (<["name" := oidText e]> (<["oid" := val]> tags))), s)
        end
    | _ => (Return, Errorf "getting value OID" [] s)
    end
  else if Type_ v =? OctetString then
    match lookup (Name v) s with
    | ((e, Some err), s) => (Return, Errorf "resolving OID: %s" [ArgError err] s)
    | ((e, None), s) =>
        match Value v with
        | VBytes bytes => (Next (metricName, <[oidText e := bytes]> tags), s)
        | _ => (Panic "interface conversion: interface {} is not []uint8", s)
        end
    end
  else
    match lookup (Name v) s with
    | ((e, Some err), s) => (Return, Errorf "resolving OID: %s" [ArgError err] s)
    | ((e, None), s) => (Next (metricName, <[oidText e := Sprintf_v (Value v)]> tags), s)
    end.

(** The loop over [packet.Variables], in the order received. *)
Fixpoint walkVariables (vars : list SnmpPDU) (metricName : string)
    (tags : gmap string string) (s : SnmpTrap)
    : Flow (string * gmap string string) * SnmpTrap :=
  match vars with
  | [] => (Next (metricName, tags), s)
  | v :: vars' =>
      match walkVariable v metricName tags s with
      | (Next (metricName, tags), s) => walkVariables vars' metricName tags s
      | stopped => stopped
      end
  end.

(** The tags every packet starts with. *)
Definition initialTags (packet : SnmpPacket) (source : string) : gmap string string :=
  <["source" := source]> (<["version" := SnmpVersion_String (PacketVersion packet)]> ∅).

(** The function [makeTrapHandler(s)] returns, applied to a packet and the
    sender's address; [source] is [addr.IP.String()] and [tm] is what
    [s.timeFunc()] returned on entry. *)
Definition makeTrapHandler (tm : Time) (packet : SnmpPacket) (source : string)
    (s : SnmpTrap) : Flow unit * SnmpTrap :=
  match translateV1 packet ∅ (initialTags packet source) s with
  | (Next (fields, tags), s) =>
      match walkVariables (Variables packet) "" tags s with
      | (Next (metricName, tags), s) =>
          if String.eqb metricName "" then
            (Return, Errorf "parsing packet: %+v" [ArgPacket packet] s)
          else
            let fields := <[metricName := FInt 1]> fields in
            (Next tt, AddFields "snmp_trap" fields tags tm s)
      | (Return, s) => (Return, s)
      | (Panic msg, s) => (Panic msg, s)
      end
  | (Return, s) => (Return, s)
  | (Panic msg, s) => (Panic msg, s)
  end.

(** What happens to the plugin between two moments: lookups, each one a
    step under the lock, and packets handled. *)
Inductive Activity :=
| DoLookup (oid : string)
| DoHandle (tm : Time) (packet : SnmpPacket) (source : string).

Definition perform (a : Activity) (s : SnmpTrap) : SnmpTrap :=
  match a with
  | DoLookup oid => (lookup oid s).2
  | DoHandle tm packet source => (makeTrapHandler tm packet source s).2
  end.

Fixpoint run (activities : list Activity) (s : SnmpTrap) : SnmpTrap :=
  match activities with
  | [] => s
  | a :: activities' => run activities' (perform a s)
  end.

End Handler.

(** ** Start

    The three [switch] statements on the lower-cased V3 settings; [None]
    stands for the [default] branch. *)
Definition secLevelOf (l : string) : option SnmpV3MsgFlags :=
  if String.eqb l "noauthnopriv" || String.eqb l "" then Some NoAuthNoPriv
  else if String.eqb l "authnopriv" then Some AuthNoPriv
  else if String.eqb l "authpriv" then Some AuthPriv
  else None.

Definition authProtocolOf (l : string) : option SnmpV3AuthProtocol :=
  if String.eqb l "md5" then Some MD5
  else if String.eqb l "sha" then Some SHA
  else if String.eqb l "" then Some NoAuth
  else None.

Definition privProtocolOf (l : string) : option SnmpV3PrivProtocol :=
  if String.eqb l "aes" then Some AES
  else if String.eqb l "des" then Some DES
  else if String.eqb l "aes192" then Some AES192
  else if String.eqb l "aes192c" then Some AES192C
  else if String.eqb l "aes256" then Some AES256
  else if String.eqb l "aes256c" then Some AES256C
  else if String.eqb l "" then Some NoPriv
  else None.

(** The [switch] on [s.Version]. *)
Definition versionOf (v : string) : SnmpVersion :=
  if String.eqb v "3" then Version3
  else if String.eqb v "2c" then Version2c
  else if String.eqb v "1" then Version1
  else Version2c.

(** How the wait at the end of [Start] ends: the listener signals that it
    is listening, or [Listen] returns first and its result arrives on
    [errCh]. *)
Inductive ListenOutcome :=
| NowListening
| ListenReturned (err : option error).

Section Lifecycle.

(** [strings.ToLower]; Go lower-cases every Unicode letter, and nothing
    below depends on which letters those are. *)
Variable ToLower : string -> string.

(** What happens to [s.listener.Listen(addr)] once it is started. *)
Variable listen : string -> ListenOutcome.

(** The block of [Start] run when the version is 3.  Each setting is
    written to the listener's parameters before the next one is read. *)
Definition configureV3 (s : SnmpTrap) (params : GoSNMP) : option error * GoSNMP :=
  let params :=
    {| ParamsVersion := ParamsVersion params; MsgFlags := MsgFlags params;
       SecurityModel := UserSecurityModel;
       SecurityParameters := SecurityParameters params |} in
  match secLevelOf (ToLower (SecLevel s)) with
  | None => (Some ("unknown security level '" +:+ SecLevel s +:+ "'"), params)
  | Some flags =>
      let params :=
        {| ParamsVersion := ParamsVersion params; MsgFlags := flags;
           SecurityModel := SecurityModel params;
           SecurityParameters := SecurityParameters params |} in
      match authProtocolOf (ToLower (AuthProtocol s)) with
      | None =>
          (Some ("unknown authentication protocol '" +:+ AuthProtocol s +:+ "'"), params)
      | Some authenticationProtocol =>
          match privProtocolOf (ToLower (PrivProtocol s)) with
          | None =>
              (Some ("unknown privacy protocol '" +:+ PrivProtocol s +:+ "'"), params)
          | Some privacyProtocol =>
              (None,
               {| ParamsVersion := ParamsVersion params; MsgFlags := MsgFlags params;
                  SecurityModel := SecurityModel params;
                  SecurityParameters :=
                    Some {| UserName := SecName s;
                            PrivacyProtocol := privacyProtocol;
                            PrivacyPassphrase := PrivPassword s;
                            AuthenticationPassphrase := AuthPassword s;
                            AuthenticationProtocol := authenticationProtocol |} |})
          end
      end
  end.

(** [Start]: the error returned and the plugin afterwards.

    [s.listener.Params = gosnmp.Default] makes the listener's parameters
    the shared object itself, and the assignments that follow write through
    it.  [shared] is what that object holds when [Start] is entered: the
    initial [Default] for the first [Start] of the process, what an earlier
    [Start] left otherwise.  The parameters the listener holds afterwards
    are what the shared object holds from then on. *)
Definition Start (shared : GoSNMP) (s : SnmpTrap) : option error * SnmpTrap :=
  let params :=
    {| ParamsVersion := versionOf (Version s); MsgFlags := MsgFlags shared;
       SecurityModel := SecurityModel shared;
       SecurityParameters := SecurityParameters shared |} in
  let '(err, params) :=
    match ParamsVersion params with
    | Version3 => configureV3 s params
    | _ => (None, params)
    end in
  let s := setListener params s in
  match err with
  | Some err => (Some err, s)
  | None =>
      match Strings.SplitN (ServiceAddress s) "://" 2 with
      | [protocol; addr] =>
          if negb (String.eqb protocol "udp") then
            (Some ("unknown protocol '" +:+ protocol +:+ "' in '" +:+ ServiceAddress s +:+ "'"), s)
          else
            let s := recordListen addr s in
            match listen addr with
            | NowListening => (None, Infof "Listening on %s" [ArgString (ServiceAddress s)] s)
            | ListenReturned err => (err, s)
            end
      | _ => (Some ("invalid service address: " +:+ ServiceAddress s), s)
      end
  end.

End Lifecycle.

(** ** Vocabulary of the properties *)

(** [quiet s s']: going from [s] to [s'] added no metric, started no
    listener and kept every entry of the cache. [silent] adds that nothing
    was logged. *)
Definition quiet (s s' : SnmpTrap) : Prop :=
  acc s' = acc s /\ listenCalls s' = listenCalls s /\
  forall k e, cache s !! k = Some e -> cache s' !! k = Some e.

Definition silent (s s' : SnmpTrap) : Prop :=
  quiet s s' /\ Log s' = Log s.

(** The fields a packet brings along before the metric name is added: the
    time stamp of a v1 packet, nothing for the other versions. *)
Definition v1Fields (packet : SnmpPacket) : gmap string FieldValue :=
  match PacketVersion packet with
  | Version1 => {["sysUpTimeInstance" := FUint (Timestamp packet)]}
  | _ => ∅
  end.

(** An object-identifier-typed variable named by the snmpTrapOID node. *)
Definition isTrapOidVar (v : SnmpPDU) : bool :=
  (Type_ v =? ObjectIdentifier) && String.eqb (Name v) snmpTrapOid.

(** The first line of an output: its bytes before the first line feed, or
    all of them when there is none, without the carriage return that may
    end them. *)
Definition rawLine (out : string) : string :=
  match Bufio.indexByte out Bufio.newline with
  | Some i => Strings.take i out
  | None => out
  end.

Definition firstLine (out : string) : string := Bufio.dropCR (rawLine out).

(** [line] is [before], the separator and [after], and the separator does
    not occur any earlier in [line]. *)
Definition firstOccurrence (sep line before after : string) : Prop :=
  line = before +:+ sep +:+ after /\
  forall before' after',
    line = before' +:+ sep +:+ after' -> (String.length before <= String.length before')%nat.

(** The separator occurs nowhere in [line]. *)
Definition absent (sep line : string) : Prop :=
  forall before after, line <> before +:+ sep +:+ after.

(** The part of a service address before the first "://", if there is one. *)
Definition schemeOf (address : string) : option string :=
  let i := Strings.Index address "://" in
  if i =? -1 then None else Some (Strings.sliceTo address i).

(** The V3 setting strings the configuration accepts, in lower case. *)
Definition secLevels : list string := ["noauthnopriv"; "authnopriv"; "authpriv"; ""].
Definition authProtocols : list string := ["md5"; "sha"; ""].
Definition privProtocols : list string :=
  ["aes"; "des"; "aes192"; "aes192c"; "aes256"; "aes256c"; ""].

(** The configuration errors of the V3 block. *)
Definition v3Errors (s : SnmpTrap) : list error :=
  ["unknown security level '" +:+ SecLevel s +:+ "'";
   "unknown authentication protocol '" +:+ AuthProtocol s +:+ "'";
   "unknown privacy protocol '" +:+ PrivProtocol s +:+ "'"].

(** ** Sample data

    A translation program that knows three object identifiers and fails on
    every other one, a freshly initialised plugin, and a few packets. *)
Definition lf : string := String Bufio.newline "".

Definition sampleExec (n : nat) (timeout : Z) (arg0 : string) (args : list string)
    : string * option error :=
  match last args with
  | Some oid =>
      if String.eqb oid ".1.3.6.1.6.3.1.1.5.3" then ("IF-MIB::linkDown" +:+ lf, None)
      else if String.eqb oid ".1.3.6.1.6.3.1.1.5.1" then ("SNMPv2-MIB::coldStart" +:+ lf, None)
      else if String.eqb oid ".1.3.6.1.2.1.2.2.1.2" then ("IF-MIB::ifDescr" +:+ lf, None)
      else ("", Some "run timeout: exit status 2")
  | None => ("", Some "run timeout: exit status 1")
  end.

Definition freshPlugin : SnmpTrap :=
  Init {| ServiceAddress := "udp://:162"; Timeout := 5000000000; Version := "2c";
          SecLevel := ""; SecName := ""; AuthProtocol := ""; AuthPassword := "";
          PrivProtocol := ""; PrivPassword := "";
          acc := []; listener := None; Log := []; cache := ∅;
          execCalls := []; listenCalls := [] |}.

Definition linkDownVar : SnmpPDU :=
  {| Name := snmpTrapOid; Type_ := ObjectIdentifier; Value := VString ".1.3.6.1.6.3.1.1.5.3" |}.

Definition upTimeVar : SnmpPDU :=
  {| Name := sysUpTimeOid; Type_ := TimeTicks; Value := VUint 1234 |}.

Definition ifDescrVar : SnmpPDU :=
  {| Name := ".1.3.6.1.2.1.2.2.1.2"; Type_ := OctetString; Value := VBytes "eth0" |}.

Definition linkDownV2 : SnmpPacket :=
  {| PacketVersion := Version2c; Variables := [upTimeVar; linkDownVar; ifDescrVar];
     Enterprise := ""; AgentAddress := ""; GenericTrap := 0; SpecificTrap := 0;
     Timestamp := 0 |}.

(** A v1 linkDown trap (generic trap 2), and a v1 trap whose generic trap
    code is none of the seven defined ones. *)
Definition linkDownV1 : SnmpPacket :=
  {| PacketVersion := Version1; Variables := [linkDownVar];
     Enterprise := ".1.3.6.1.4.1.8072"; AgentAddress := "192.0.2.1";
     GenericTrap := 2; SpecificTrap := 0; Timestamp := 42 |}.

Definition strayV1 : SnmpPacket :=
  {| PacketVersion := Version1; Variables := [linkDownVar];
     Enterprise := ".1.3.6.1.4.1.8072"; AgentAddress := "192.0.2.1";
     GenericTrap := 7; SpecificTrap := 0; Timestamp := 42 |}.

(** An octet-string-typed variable that carries an integer and whose name
    the translation program does not know, and a packet made of it. *)
Definition oddOctets : SnmpPDU :=
  {| Name := ".1.3.9.1"; Type_ := OctetString; Value := VInt 5 |}.

Definition unresolvedPacket : SnmpPacket :=
  {| PacketVersion := Version2c; Variables := [linkDownVar; oddOctets];
     Enterprise := ""; AgentAddress := ""; GenericTrap := 0; SpecificTrap := 0;
     Timestamp := 0 |}.

(** The same with a name the translation program knows. *)
Definition oddDescr : SnmpPDU :=
  {| Name := ".1.3.6.1.2.1.2.2.1.2"; Type_ := OctetString; Value := VInt 5 |}.

Definition oddPacket : SnmpPacket :=
  {| PacketVersion := Version2c; Variables := [linkDownVar; oddDescr];
     Enterprise := ""; AgentAddress := ""; GenericTrap := 0; SpecificTrap := 0;
     Timestamp := 0 |}.

(** A translation program that answers one object identifier with a line
    whose name part is empty, and a packet with two snmpTrapOID variables,
    the first of which carries that object identifier. *)
Definition emptyNameExec (n : nat) (timeout : Z) (arg0 : string) (args : list string)
    : string * option error :=
  match last args with
  | Some oid =>
      if String.eqb oid ".1.3.9.9" then ("X::" +:+ lf, None)
      else sampleExec n timeout arg0 args
  | None => sampleExec n timeout arg0 args
  end.

Definition emptyNameVar : SnmpPDU :=
  {| Name := snmpTrapOid; Type_ := ObjectIdentifier; Value := VString ".1.3.9.9" |}.

Definition twoTrapOids : SnmpPacket :=
  {| PacketVersion := Version2c; Variables := [emptyNameVar; linkDownVar];
     Enterprise := ""; AgentAddress := ""; GenericTrap := 0; SpecificTrap := 0;
     Timestamp := 0 |}.



(** A V3 configuration with a misspelt authentication protocol, one with
    every V3 setting left empty, and one listening on TCP. *)
Definition withSettings (version secLevel authProtocol privProtocol address : string)
    : SnmpTrap :=
  {| ServiceAddress := address; Timeout := 5000000000; Version := version;
     SecLevel := secLevel; SecName := "operator"; AuthProtocol := authProtocol;
     AuthPassword := "secret"; PrivProtocol := privProtocol; PrivPassword := "hidden";
     acc := []; listener := None; Log := []; cache := ∅;
     execCalls := []; listenCalls := [] |}.

Definition misspeltV3 : SnmpTrap := withSettings "3" "AuthPriv" "SHA-1" "AES" "udp://:162".
Definition emptyV3 : SnmpTrap := withSettings "3" "" "" "" "udp://:162".
Definition overTcp : SnmpTrap := withSettings "2c" "" "" "" "tcp://:162".

Definition listenOk (addr : string) : ListenOutcome := NowListening.

(** The tags a walk has gathered when it is not stopped. *)
Definition walkTags (r : Flow (string * gmap string string) * SnmpTrap)
    : gmap string string :=
  match r.1 with
  | Next (_, tags) => tags
  | _ => ∅
  end.

Definition linkDownEntry : mibEntry := {| mibName := "IF-MIB"; oidText := "linkDown" |}.
Definition ifDescrEntry : mibEntry := {| mibName := "IF-MIB"; oidText := "ifDescr" |}.

(** ** Further vocabulary: external calls, log lines, replaced variables *)

(** A call of the translation program as [snmptranslate] makes it: the
    program name, the fixed flags, one OID, and the configured timeout. *)
Definition isTranslateCall (timeout : Z) (c : ExecCall) : Prop :=
  callTimeout c = timeout /\ callArg0 c = "snmptranslate" /\
  exists oid, callArgs c = ["-Td"; "-Ob"; "-m"; "all"; oid].

(** [translated n s s']: going from [s] to [s'] kept the timeout, made at
    most [n] external calls, all of them translation calls appended to the
    calls already made, and added at most one cache entry per call. *)
Definition translated (n : nat) (s s' : SnmpTrap) : Prop :=
  Timeout s' = Timeout s /\
  exists new,
    execCalls s' = (execCalls s ++ new)%list /\
    (length new <= n)%nat /\
    Forall (isTranslateCall (Timeout s)) new /\
    (size (cache s') <= size (cache s) + length new)%nat.

(** [loggedError s s']: exactly one line was logged, at error level. *)
Definition loggedError (s s' : SnmpTrap) : Prop :=
  exists l, Log s' = (Log s ++ [l])%list /\ logLevel l = LevelError.

(** [covers s s']: every entry of the cache of [s] is in the cache of [s']. *)
Definition covers (s s' : SnmpTrap) : Prop :=
  forall k e, cache s !! k = Some e -> cache s' !! k = Some e.

(** The variables of a packet the walk does not skip. *)
Definition isWalked (v : SnmpPDU) : bool := negb (String.eqb (Name v) sysUpTimeOid).

(** A packet with its variables replaced. *)
Definition withVariables (packet : SnmpPacket) (vars : list SnmpPDU) : SnmpPacket :=
  {| PacketVersion := PacketVersion packet; Variables := vars;
     Enterprise := Enterprise packet; AgentAddress := AgentAddress packet;
     GenericTrap := GenericTrap packet; SpecificTrap := SpecificTrap packet;
     Timestamp := Timestamp packet |}.

(** The number of lookups the v1 translation can make for a packet. *)
Definition v1Lookups (packet : SnmpPacket) : nat :=
  match PacketVersion packet with
  | Version1 => 1
  | _ => 0
  end.


(** ** Further sample data *)

(** A v1 enterprise-specific trap of an enterprise the translation program
    does not know, a valid V3 configuration, and a listener that fails to
    bind. *)
Definition enterpriseV1 : SnmpPacket :=
  {| PacketVersion := Version1; Variables := [linkDownVar; ifDescrVar];
     Enterprise := ".1.3.6.1.4.1.8072"; AgentAddress := "192.0.2.1";
     GenericTrap := 6; SpecificTrap := 3; Timestamp := 42 |}.

Definition validV3 : SnmpTrap :=
  withSettings "3" "AuthPriv" "SHA" "AES" "udp://127.0.0.1:1162".

Definition listenFails (addr : string) : ListenOutcome :=
  ListenReturned (Some "listen udp: address already in use").

(** The values of the V3 settings as the configuration documents them, in
    lower case, each with the gosnmp constant it names. *)
Definition secLevelNames : list (string * SnmpV3MsgFlags) :=
  [("noauthnopriv", NoAuthNoPriv); ("authnopriv", AuthNoPriv); ("authpriv", AuthPriv);
   ("", NoAuthNoPriv)].

Definition authProtocolNames : list (string * SnmpV3AuthProtocol) :=
  [("md5", MD5); ("sha", SHA); ("", NoAuth)].

Definition privProtocolNames : list (string * SnmpV3PrivProtocol) :=
  [("des", DES); ("aes", AES); ("aes192", AES192); ("aes192c", AES192C);
   ("aes256", AES256); ("aes256c", AES256C); ("", NoPriv)].

(** What the shared parameters hold after a [Start] with [validV3]. *)
Definition sharedAfterV3 : GoSNMP :=
  {| ParamsVersion := Version3; MsgFlags := AuthPriv; SecurityModel := UserSecurityModel;
     SecurityParameters :=
       Some {| UserName := "operator"; AuthenticationProtocol := SHA;
               PrivacyProtocol := AES; AuthenticationPassphrase := "secret";
               PrivacyPassphrase := "hidden" |} |}.

(** * Properties *)

(** ** Strings *)

Lemma append_nil (b : string) : "" +:+ b = b.
Proof. reflexivity. Qed.

Lemma append_cons (c : ascii) (a b : string) : String c a +:+ b = String c (a +:+ b).
Proof. reflexivity. Qed.

Ltac norm_append := rewrite ?append_cons, ?append_nil in *.

Lemma append_empty_r (s : string) : s +:+ "" = s.
Proof. induction s as [|c s IH]; norm_append; [reflexivity | now rewrite IH]. Qed.


Lemma length_append (a b : string) :
  String.length (a +:+ b) = (String.length a + String.length b)%nat.
Proof. induction a as [|x a IH]; norm_append; simpl; [reflexivity | now rewrite IH]. Qed.

Lemma take_append (a b : string) : Strings.take (String.length a) (a +:+ b) = a.
Proof.
  induction a as [|x a IH]; norm_append; simpl; [now destruct b | now rewrite IH].
Qed.

Lemma drop_append (a b : string) : Strings.drop (String.length a) (a +:+ b) = b.
Proof.
  induction a as [|x a IH]; norm_append; simpl; [now destruct b | exact IH].
Qed.

Lemma take_drop (n : nat) (s : string) : Strings.take n s +:+ Strings.drop n s = s.
Proof.
  revert s; induction n as [|n IH]; intros [|c s]; simpl; norm_append; try reflexivity.
  now rewrite IH.
Qed.

Lemma length_take (n : nat) (s : string) :
  (n <= String.length s)%nat -> String.length (Strings.take n s) = n.
Proof.
  revert s; induction n as [|n IH]; intros [|c s]; simpl; intros H; try lia.
  rewrite IH; lia.
Qed.

Lemma HasPrefix_spec (s p : string) :
  Strings.HasPrefix s p = true <-> exists t, s = p +:+ t.
Proof.
  revert s; induction p as [|c p IH]; intros s; simpl.
  - split; [intros _; now exists s | reflexivity].
  - destruct s as [|d s].
    + split; [discriminate | intros [t Ht]; discriminate].
    + destruct (Ascii.eqb_spec c d) as [->|Hne].
      * rewrite IH. split; intros [t Ht]; exists t; norm_append; congruence.
      * split; [discriminate | intros [t Ht]; norm_append; congruence].
Qed.

Lemma indexNat_unfold (s sep : string) :
  Strings.indexNat s sep =
  if Strings.HasPrefix s sep then Some O
  else match s with
       | EmptyString => None
       | String _ s' => S <$> Strings.indexNat s' sep
       end.
Proof. destruct s; reflexivity. Qed.

(** A successful search cuts the string around the separator. *)
Lemma indexNat_Some (s sep : string) (i : nat) :
  Strings.indexNat s sep = Some i ->
  s = Strings.take i s +:+ sep +:+ Strings.drop (i + String.length sep) s.
Proof.
  revert i; induction s as [|c s IH]; intros i; rewrite indexNat_unfold.
  - destruct (Strings.HasPrefix "" sep) eqn:Hp; [|discriminate].
    intros [= <-]. apply HasPrefix_spec in Hp as [t Ht].
    destruct sep; [reflexivity | discriminate].
  - destruct (Strings.HasPrefix (String c s) sep) eqn:Hp.
    + intros [= <-]. apply HasPrefix_spec in Hp as [t Ht].
      change (Strings.take 0 (String c s)) with "".
      rewrite Ht at 2. simpl. norm_append. now rewrite drop_append.
    + destruct (Strings.indexNat s sep) as [j|] eqn:Hj; [|discriminate].
      simpl. intros [= <-]. simpl. norm_append. f_equal. now apply IH.
Qed.

Lemma indexNat_bound (s sep : string) (i : nat) :
  Strings.indexNat s sep = Some i -> (i + String.length sep <= String.length s)%nat.
Proof.
  revert i; induction s as [|c s IH]; intros i; rewrite indexNat_unfold.
  - destruct (Strings.HasPrefix "" sep) eqn:Hp; [|discriminate].
    intros [= <-]. apply HasPrefix_spec in Hp as [t Ht].
    destruct sep; [simpl; lia | discriminate].
  - destruct (Strings.HasPrefix (String c s) sep) eqn:Hp.
    + intros [= <-]. apply HasPrefix_spec in Hp as [t Ht].
      rewrite Ht, length_append. lia.
    + destruct (Strings.indexNat s sep) as [j|] eqn:Hj; [|discriminate].
      simpl. intros [= <-]. specialize (IH j eq_refl). simpl. lia.
Qed.

(** No instance of the separator starts before the position found. *)
Lemma indexNat_first (s sep : string) (i : nat) :
  Strings.indexNat s sep = Some i ->
  forall pre post, s = pre +:+ sep +:+ post -> (i <= String.length pre)%nat.
Proof.
  revert i; induction s as [|c s IH]; intros i; rewrite indexNat_unfold.
  - destruct (Strings.HasPrefix "" sep); [|discriminate]. intros [= <-]; lia.
  - destruct (Strings.HasPrefix (String c s) sep) eqn:Hp.
    + intros [= <-]; lia.
    + destruct (Strings.indexNat s sep) as [j|] eqn:Hj; [|discriminate].
      simpl. intros [= <-] pre post Hs.
      destruct pre as [|d pre]; norm_append.
      * assert (Strings.HasPrefix (String c s) sep = true) as Hq
          by (apply HasPrefix_spec; now exists post).
        congruence.
      * injection Hs as -> Hs. simpl. specialize (IH j eq_refl pre post Hs). lia.
Qed.

(** A failed search means the separator is nowhere in the string. *)
Lemma indexNat_None (s sep : string) :
  Strings.indexNat s sep = None ->
  forall pre post, s <> pre +:+ sep +:+ post.
Proof.
  induction s as [|c s IH]; rewrite indexNat_unfold.
  - destruct (Strings.HasPrefix "" sep) eqn:Hp; [discriminate|].
    intros _ pre post Hs. destruct pre; [|discriminate]. norm_append.
    assert (Strings.HasPrefix "" sep = true) as Hq
      by (apply HasPrefix_spec; now exists post).
    congruence.
  - destruct (Strings.HasPrefix (String c s) sep) eqn:Hp; [discriminate|].
    destruct (Strings.indexNat s sep) as [j|] eqn:Hj; [discriminate|].
    intros _ pre post Hs. destruct pre as [|d pre]; norm_append.
    + assert (Strings.HasPrefix (String c s) sep = true) as Hq
        by (apply HasPrefix_spec; now exists post).
      congruence.
    + injection Hs as -> Hs. now apply (IH eq_refl pre post).
Qed.

Lemma Index_found (s sep : string) :
  Strings.Index s sep <> -1 ->
  exists i, Strings.indexNat s sep = Some i /\ Strings.Index s sep = Z.of_nat i.
Proof.
  unfold Strings.Index. destruct (Strings.indexNat s sep) as [i|]; [|congruence].
  intros _; now exists i.
Qed.

Lemma Index_absent (s sep : string) :
  Strings.Index s sep = -1 -> Strings.indexNat s sep = None.
Proof.
  unfold Strings.Index. destruct (Strings.indexNat s sep) as [i|]; [lia | reflexivity].
Qed.

Example Index_linkDown : Strings.Index "IF-MIB::linkDown" "::" = 6.
Proof. reflexivity. Qed.

Example Index_missing : Strings.Index "no such name" "::" = -1.
Proof. reflexivity. Qed.

Example SplitN_udp : Strings.SplitN "udp://:162" "://" 2 = ["udp"; ":162"].
Proof. reflexivity. Qed.

Example SplitN_twice : Strings.SplitN "a://b://c" "://" 2 = ["a"; "b://c"].
Proof. reflexivity. Qed.

Example SplitN_no_scheme : Strings.SplitN "localhost:162" "://" 2 = ["localhost:162"].
Proof. reflexivity. Qed.

Example SplitN_empty : Strings.SplitN "" "://" 2 = [""].
Proof. reflexivity. Qed.

Example ToLowerASCII_AuthPriv : Strings.ToLowerASCII "AuthPriv" = "authpriv".
Proof. reflexivity. Qed.

Example Itoa_minus_12 : Strconv.Itoa (-12) = "-12".
Proof. reflexivity. Qed.

Example Itoa_zero : Strconv.Itoa 0 = "0".
Proof. reflexivity. Qed.

Example Scan_crlf :
  Bufio.Scan ("IF-MIB::linkDown" +:+ String Bufio.carriageReturn (String Bufio.newline "rest"))
  = Bufio.ScanToken "IF-MIB::linkDown".
Proof. reflexivity. Qed.

Example Scan_nothing : Bufio.Scan "" = Bufio.ScanEOF.
Proof. reflexivity. Qed.

Example Sprintf_bytes : Sprintf_v (VBytes "hi") = "[104 105]".
Proof. reflexivity. Qed.

(** ** The canonical trap OID of a v1 packet *)

Lemma wrapInt_small (x : Z) : - 2 ^ 63 <= x < 2 ^ 63 -> wrapInt x = x.
Proof. intros H. unfold wrapInt. rewrite Z.mod_small; lia. Qed.

(** C2: for a generic trap code from 0 to 5 the canonical trap OID is
    ".1.3.6.1.6.3.1.1.5." followed by the decimal rendering of the code plus
    one; for the code 6 it is the enterprise OID, ".0." and the decimal
    rendering of the specific trap code. *)
Theorem C2_v1_trap_oid (packet : SnmpPacket) :
  (0 <= GenericTrap packet <= 5 ->
   v1TrapOid packet = ".1.3.6.1.6.3.1.1.5." +:+ Strconv.Itoa (GenericTrap packet + 1)) /\
  (GenericTrap packet = 6 ->
   v1TrapOid packet = Enterprise packet +:+ ".0." +:+ Strconv.Itoa (SpecificTrap packet)).
Proof.
  unfold v1TrapOid; split.
  - intros [Hlo Hhi].
    destruct (Z.leb_spec 0 (GenericTrap packet)); [|lia].
    destruct (Z.ltb_spec (GenericTrap packet) 6); [|lia].
    simpl. unfold intAdd. rewrite wrapInt_small; [reflexivity | lia].
  - intros ->. reflexivity.
Qed.

(** The decimal rendering reads back as the number rendered. *)
Lemma Itoa_reads_back (i : Z) :
  Z.of_int <$> NilZero.int_of_string (Strconv.Itoa i) = Some i.
Proof.
  unfold Strconv.Itoa. rewrite NilZero.isi.
  - simpl. f_equal. apply DecimalZ.of_to.
  - destruct i as [|p|p]; simpl; try discriminate.
    intros [= H]. now apply DecimalPos.Unsigned.to_uint_nonnil in H.
  - destruct i as [|p|p]; simpl; try discriminate.
    intros [= H]. now apply DecimalPos.Unsigned.to_uint_nonnil in H.
Qed.

(** ** The OID cache *)

Section CacheProperties.

Variable execCmd : nat -> Z -> string -> list string -> string * option error.

(** A translation runs the external program once and touches nothing else. *)
Lemma snmptranslate_state (oid : string) (s : SnmpTrap) :
  (snmptranslate execCmd oid s).2 = recordExec (translateCall oid s) s.
Proof.
  unfold snmptranslate, translateCall.
  destruct (execCmd _ _ _ _) as [out [err|]]; [reflexivity|].
  destruct (Bufio.Scan out); try reflexivity;
    match goal with |- context [if ?b then _ else _] => destruct b end; reflexivity.
Qed.

Lemma lookup_hit (oid : string) (s : SnmpTrap) (e : mibEntry) :
  cache s !! oid = Some e -> lookup execCmd oid s = ((e, None), s).
Proof. intros H. unfold lookup. now rewrite H. Qed.

Lemma lookup_miss (oid : string) (s : SnmpTrap) :
  cache s !! oid = None ->
  lookup execCmd oid s =
  match snmptranslate execCmd oid s with
  | ((e, None), s1) => ((e, None), setCache (<[oid := e]> (cache s1)) s1)
  | ((e, Some err), s1) => ((e, Some err), s1)
  end.
Proof.
  intros H. unfold lookup. rewrite H.
  destruct (snmptranslate execCmd oid s) as [[e [err|]] s1]; reflexivity.
Qed.

(** A lookup that succeeds leaves the OID in the cache with the entry it
    returned. *)
Lemma lookup_ok_cached (oid : string) (s s1 : SnmpTrap) (e : mibEntry) :
  lookup execCmd oid s = ((e, None), s1) -> cache s1 !! oid = Some e.
Proof.
  destruct (cache s !! oid) as [e0|] eqn:Hc.
  - rewrite (lookup_hit _ _ _ Hc). intros [= <- <-]. exact Hc.
  - rewrite (lookup_miss _ _ Hc).
    destruct (snmptranslate execCmd oid s) as [[e1 [err|]] s2]; [discriminate|].
    intros [= <- <-]. simpl. apply lookup_insert_eq.
Qed.

(** A lookup that fails happened on a miss and leaves the plugin as the
    failed translation left it. *)
Lemma lookup_err_inv (oid : string) (s s1 : SnmpTrap) (e : mibEntry) (err : error) :
  lookup execCmd oid s = ((e, Some err), s1) ->
  cache s !! oid = None /\ snmptranslate execCmd oid s = ((e, Some err), s1).
Proof.
  destruct (cache s !! oid) as [e0|] eqn:Hc.
  - rewrite (lookup_hit _ _ _ Hc). discriminate.
  - rewrite (lookup_miss _ _ Hc).
    destruct (snmptranslate execCmd oid s) as [[e1 [err1|]] s2]; [|discriminate].
    intros [= <- <- <-]. now split.
Qed.

(** Lookups never emit, log or start a listener, and never drop or change
    an entry of the cache. *)
Lemma lookup_frame (oid : string) (s : SnmpTrap) :
  acc (lookup execCmd oid s).2 = acc s /\ Log (lookup execCmd oid s).2 = Log s /\
  listenCalls (lookup execCmd oid s).2 = listenCalls s.
Proof.
  destruct (cache s !! oid) as [e0|] eqn:Hc.
  - now rewrite (lookup_hit _ _ _ Hc).
  - rewrite (lookup_miss _ _ Hc). pose proof (snmptranslate_state oid s) as Hs.
    destruct (snmptranslate execCmd oid s) as [[e1 [err|]] s2]; simpl in *; subst s2; auto.
Qed.

Lemma lookup_keeps (oid : string) (s : SnmpTrap) (k : string) (e : mibEntry) :
  cache s !! k = Some e -> cache (lookup execCmd oid s).2 !! k = Some e.
Proof.
  intros Hk. destruct (cache s !! oid) as [e0|] eqn:Hc.
  - now rewrite (lookup_hit _ _ _ Hc).
  - rewrite (lookup_miss _ _ Hc). pose proof (snmptranslate_state oid s) as Hs.
    destruct (snmptranslate execCmd oid s) as [[e1 [err|]] s2]; simpl in *; subst s2; simpl; auto.
    rewrite lookup_insert_ne; [exact Hk | congruence].
Qed.

Lemma quiet_refl (s : SnmpTrap) : quiet s s.
Proof. unfold quiet; auto. Qed.

Lemma silent_refl (s : SnmpTrap) : silent s s.
Proof. split; [apply quiet_refl | reflexivity]. Qed.

Lemma quiet_trans (s1 s2 s3 : SnmpTrap) : quiet s1 s2 -> quiet s2 s3 -> quiet s1 s3.
Proof.
  unfold quiet. intros (Ha & Hl & Hc) (Ha' & Hl' & Hc').
  repeat split; [congruence | congruence | auto].
Qed.

Lemma silent_trans (s1 s2 s3 : SnmpTrap) : silent s1 s2 -> silent s2 s3 -> silent s1 s3.
Proof.
  intros [Hq Hl] [Hq' Hl']. split; [eapply quiet_trans; eauto | congruence].
Qed.

Lemma quiet_Errorf (format : string) (args : list LogArg) (s s' : SnmpTrap) :
  quiet s s' -> quiet s (Errorf format args s').
Proof. unfold quiet. simpl. auto. Qed.

Lemma lookup_silent (oid : string) (s : SnmpTrap) : silent s (lookup execCmd oid s).2.
Proof.
  destruct (lookup_frame oid s) as (Ha & Hl & Hc).
  repeat split; auto. intros k e. apply lookup_keeps.
Qed.

(** Case analysis on the next lookup in the goal, remembering that it was
    silent. *)
Ltac split_lookup :=
  match goal with
  | |- context [lookup ?f ?o ?s] =>
      let H := fresh "Hsilent" in
      let E := fresh "Hlookup" in
      pose proof (lookup_silent o s) as H;
      destruct (lookup f o s) as [[? [?|]] ?] eqn:E; simpl in H
  end.

Ltac close_step :=
  simpl; unfold silent in *; destruct_and?;
  try solve [ apply quiet_refl | assumption | split; [apply quiet_refl | reflexivity]
            | apply quiet_Errorf; assumption | apply quiet_Errorf; apply quiet_refl
            | split; assumption ].

(** Whatever way a step of the handler ends, it is quiet; when it does not
    return, it is silent as well. *)
Lemma walkVariable_quiet (v : SnmpPDU) (metricName : string)
    (tags : gmap string string) (s : SnmpTrap) :
  quiet s (walkVariable execCmd v metricName tags s).2.
Proof.
  unfold walkVariable.
  repeat match goal with
         | |- context [if ?b then _ else _] => destruct b
         | |- context [match Value v with _ => _ end] => destruct (Value v)
         | _ => split_lookup
         end; close_step.
Qed.

Lemma walkVariable_silent (v : SnmpPDU) (metricName : string)
    (tags : gmap string string) (s : SnmpTrap) :
  (walkVariable execCmd v metricName tags s).1 <> Return ->
  silent s (walkVariable execCmd v metricName tags s).2.
Proof.
  unfold walkVariable.
  repeat match goal with
         | |- context [if ?b then _ else _] => destruct b
         | |- context [match Value v with _ => _ end] => destruct (Value v)
         | _ => split_lookup
         end; simpl; intros Hne; try congruence; close_step.
Qed.

Lemma walkVariables_quiet (vars : list SnmpPDU) (metricName : string)
    (tags : gmap string string) (s : SnmpTrap) :
  quiet s (walkVariables execCmd vars metricName tags s).2.
Proof.
  revert metricName tags s; induction vars as [|v vars IH]; intros metricName tags s; simpl.
  - apply quiet_refl.
  - pose proof (walkVariable_quiet v metricName tags s) as Hq.
    destruct (walkVariable execCmd v metricName tags s) as [[[mn tg]| |msg] s1]; simpl in *; auto.
    eapply quiet_trans; [exact Hq | apply IH].
Qed.

Lemma walkVariables_silent (vars : list SnmpPDU) (metricName : string)
    (tags : gmap string string) (s : SnmpTrap) :
  (walkVariables execCmd vars metricName tags s).1 <> Return ->
  silent s (walkVariables execCmd vars metricName tags s).2.
Proof.
  revert metricName tags s; induction vars as [|v vars IH]; intros metricName tags s; simpl.
  - intros _. apply silent_refl.
  - pose proof (walkVariable_silent v metricName tags s) as Hq.
    destruct (walkVariable execCmd v metricName tags s) as [[[mn tg]| |msg] s1]; simpl in *;
      intros Hne; try congruence.
    + eapply silent_trans; [apply Hq; congruence | now apply IH].
    + apply Hq; congruence.
Qed.

Lemma translateV1_quiet (packet : SnmpPacket) (fields : gmap string FieldValue)
    (tags : gmap string string) (s : SnmpTrap) :
  quiet s (translateV1 execCmd packet fields tags s).2.
Proof.
  unfold translateV1.
  destruct (PacketVersion packet); try apply quiet_refl.
  destruct (negb (String.eqb (v1TrapOid packet) "")); [split_lookup|]; close_step.
Qed.

Lemma translateV1_silent (packet : SnmpPacket) (fields : gmap string FieldValue)
    (tags : gmap string string) (s : SnmpTrap) :
  (translateV1 execCmd packet fields tags s).1 <> Return ->
  silent s (translateV1 execCmd packet fields tags s).2.
Proof.
  unfold translateV1.
  destruct (PacketVersion packet); try (intros _; apply silent_refl).
  destruct (negb (String.eqb (v1TrapOid packet) "")); [split_lookup|];
    simpl; intros Hne; try congruence; close_step.
Qed.

(** The handler is the v1 translation, the walk and the final test, in
    that order. *)
Lemma makeTrapHandler_unfold (tm : Time) (packet : SnmpPacket) (source : string)
    (s : SnmpTrap) :
  makeTrapHandler execCmd tm packet source s =
  match translateV1 execCmd packet ∅ (initialTags packet source) s with
  | (Next (fields, tags), s1) =>
      match walkVariables execCmd (Variables packet) "" tags s1 with
      | (Next (metricName, tags), s2) =>
          if String.eqb metricName "" then
            (Return, Errorf "parsing packet: %+v" [ArgPacket packet] s2)
          else
            (Next tt, AddFields "snmp_trap" (<[metricName := FInt 1]> fields) tags tm s2)
      | (Return, s2) => (Return, s2)
      | (Panic msg, s2) => (Panic msg, s2)
      end
  | (Return, s1) => (Return, s1)
  | (Panic msg, s1) => (Panic msg, s1)
  end.
Proof. reflexivity. Qed.

Lemma makeTrapHandler_keeps (tm : Time) (packet : SnmpPacket) (source : string)
    (s : SnmpTrap) (k : string) (e : mibEntry) :
  cache s !! k = Some e ->
  cache (makeTrapHandler execCmd tm packet source s).2 !! k = Some e.
Proof.
  intros Hk. rewrite makeTrapHandler_unfold.
  pose proof (translateV1_quiet packet ∅ (initialTags packet source) s) as (_ & _ & H1).
  destruct (translateV1 execCmd packet ∅ (initialTags packet source) s)
    as [[[fields tags]| |msg] s1]; simpl in *; auto.
  pose proof (walkVariables_quiet (Variables packet) "" tags s1) as (_ & _ & H2).
  destruct (walkVariables execCmd (Variables packet) "" tags s1)
    as [[[metricName tags']| |msg] s2]; simpl in *; auto.
  destruct (String.eqb metricName ""); simpl; auto.
Qed.

Lemma run_keeps (activities : list Activity) (s : SnmpTrap) (k : string) (e : mibEntry) :
  cache s !! k = Some e -> cache (run execCmd activities s) !! k = Some e.
Proof.
  revert s; induction activities as [|a activities IH]; intros s Hk; simpl; [exact Hk|].
  apply IH. destruct a as [oid|tm packet source]; simpl.
  - now apply lookup_keeps.
  - now apply makeTrapHandler_keeps.
Qed.

(** C4: once the lookup of an OID has succeeded, every later lookup of it,
    whatever lookups and packets came in between, returns the same entry
    and leaves the plugin as it found it: no external call is added. *)
Theorem C4_cache_hit (oid : string) (s s1 : SnmpTrap) (e : mibEntry) :
  lookup execCmd oid s = ((e, None), s1) ->
  forall activities,
    let s2 := run execCmd activities s1 in
    lookup execCmd oid s2 = ((e, None), s2) /\
    execCalls (lookup execCmd oid s2).2 = execCalls s2.
Proof.
  intros Hok activities s2.
  assert (cache s2 !! oid = Some e) as Hc
    by (apply run_keeps; eapply lookup_ok_cached; eauto).
  rewrite (lookup_hit _ _ _ Hc). now split.
Qed.

(** C5: when the external translation of an OID fails, lookup returns that
    error and the cache is exactly what it was, with no entry for the OID;
    the next lookup of the OID runs the external program again. *)
Theorem C5_failure_not_cached (oid : string) (s s1 : SnmpTrap) (e : mibEntry) (err : error) :
  cache s !! oid = None ->
  snmptranslate execCmd oid s = ((e, Some err), s1) ->
  lookup execCmd oid s = ((e, Some err), s1) /\
  cache s1 = cache s /\
  cache s1 !! oid = None /\
  execCalls (lookup execCmd oid s1).2 = (execCalls s1 ++ [translateCall oid s1])%list.
Proof.
  intros Hmiss Hfail.
  assert (s1 = recordExec (translateCall oid s) s) as Hs1
    by (rewrite <- snmptranslate_state, Hfail; reflexivity).
  assert (cache s1 = cache s) as Hc by (subst s1; reflexivity).
  assert (cache s1 !! oid = None) as Hmiss1 by congruence.
  repeat split; auto.
  - rewrite (lookup_miss _ _ Hmiss), Hfail. reflexivity.
  - rewrite (lookup_miss _ _ Hmiss1).
    pose proof (snmptranslate_state oid s1) as Hst.
    destruct (snmptranslate execCmd oid s1) as [[e1 [err1|]] s2]; simpl in *; subst s2;
      reflexivity.
Qed.

End CacheProperties.

Lemma C4_cache_hit_witness :
  let s1 := (lookup sampleExec ".1.3.6.1.6.3.1.1.5.3" freshPlugin).2 in
  let s2 := run sampleExec [DoHandle 5 linkDownV2 "10.0.0.9"; DoLookup ".1.3.9"] s1 in
  lookup sampleExec ".1.3.6.1.6.3.1.1.5.3" freshPlugin =
    (({| mibName := "IF-MIB"; oidText := "linkDown" |}, None), s1) /\
  lookup sampleExec ".1.3.6.1.6.3.1.1.5.3" s2 =
    (({| mibName := "IF-MIB"; oidText := "linkDown" |}, None), s2) /\
  execCalls (lookup sampleExec ".1.3.6.1.6.3.1.1.5.3" s2).2 = execCalls s2.
Proof.
  intros s1 s2.
  assert (lookup sampleExec ".1.3.6.1.6.3.1.1.5.3" freshPlugin =
          (({| mibName := "IF-MIB"; oidText := "linkDown" |}, None), s1)) as H
    by (vm_compute; reflexivity).
  split; [exact H|].
  exact (C4_cache_hit sampleExec _ _ _ _ H
           [DoHandle 5 linkDownV2 "10.0.0.9"; DoLookup ".1.3.9"]).
Defined.

Lemma C5_failure_not_cached_witness :
  let s1 := recordExec (translateCall ".1.3.9" freshPlugin) freshPlugin in
  cache freshPlugin !! ".1.3.9" = None /\
  lookup sampleExec ".1.3.9" freshPlugin =
    ((zeroEntry, Some "run timeout: exit status 2"), s1) /\
  cache s1 = cache freshPlugin /\
  cache s1 !! ".1.3.9" = None /\
  execCalls (lookup sampleExec ".1.3.9" s1).2 = (execCalls s1 ++ [translateCall ".1.3.9" s1])%list.
Proof.
  intros s1. split; [reflexivity|].
  apply (C5_failure_not_cached sampleExec ".1.3.9" freshPlugin s1 zeroEntry
           "run timeout: exit status 2"); reflexivity.
Defined.

Lemma C2_v1_trap_oid_witness :
  let coldStart := {| PacketVersion := Version1; Variables := []; Enterprise := ".1.2.3";
                      AgentAddress := ""; GenericTrap := 0; SpecificTrap := 0;
                      Timestamp := 0 |} in
  let enterprise := {| PacketVersion := Version1; Variables := []; Enterprise := ".1.2.3";
                       AgentAddress := ""; GenericTrap := 6; SpecificTrap := 7;
                       Timestamp := 0 |} in
  v1TrapOid coldStart = ".1.3.6.1.6.3.1.1.5.1" /\ v1TrapOid enterprise = ".1.2.3.0.7".
Proof.
  intros coldStart enterprise. split.
  - apply (proj1 (C2_v1_trap_oid coldStart)). simpl. lia.
  - apply (proj2 (C2_v1_trap_oid enterprise)). reflexivity.
Defined.

(** ** Parsing the output of the translation program *)

Lemma indexByte_Some (data : string) (c : ascii) (i : nat) :
  Bufio.indexByte data c = Some i ->
  (i < String.length data)%nat /\
  data = Strings.take i data +:+ String c (Strings.drop (S i) data) /\
  Bufio.indexByte (Strings.take i data) c = None.
Proof.
  revert i; induction data as [|d data IH]; intros i; simpl; [discriminate|].
  destruct (Ascii.eqb_spec d c) as [->|Hne].
  - intros [= <-]. simpl. repeat split; try lia; reflexivity.
  - destruct (Bufio.indexByte data c) as [j|]; [|discriminate].
    simpl. intros [= <-]. destruct (IH j eq_refl) as (Hlt & Heq & Hno).
    simpl. norm_append. split; [lia|]. split; [now f_equal|].
    destruct (Ascii.eqb_spec d c); [congruence|]. now rewrite Hno.
Qed.

(** The first line is what precedes the first line feed. *)
Lemma rawLine_line_feed (line rest : string) :
  Bufio.indexByte line Bufio.newline = None ->
  rawLine (line +:+ String Bufio.newline rest) = line.
Proof.
  intros Hno. unfold rawLine.
  assert (Bufio.indexByte (line +:+ String Bufio.newline rest) Bufio.newline
          = Some (String.length line)) as ->.
  { induction line as [|c line IH]; norm_append; simpl; [reflexivity|].
    simpl in Hno. destruct (Ascii.eqb c Bufio.newline); [discriminate|].
    destruct (Bufio.indexByte line Bufio.newline); [discriminate|].
    now rewrite IH. }
  apply take_append.
Qed.


(** The scanner delivers the first line when it is shorter than the
    largest token, and stops with an error otherwise. *)
Lemma Scan_fits (out : string) :
  Z.of_nat (String.length (rawLine out)) < Bufio.MaxScanTokenSize ->
  Bufio.Scan out =
  if Strings.len out =? 0 then Bufio.ScanEOF else Bufio.ScanToken (firstLine out).
Proof.
  unfold Bufio.Scan, firstLine, rawLine, Strings.len.
  destruct (Bufio.indexByte out Bufio.newline) as [i|] eqn:Hi.
  - destruct (indexByte_Some _ _ _ Hi) as (Hlt & _ & _).
    rewrite length_take by lia. intros Hfit.
    destruct (Z.ltb_spec (Z.of_nat i) Bufio.MaxScanTokenSize); [|lia].
    destruct (Z.eqb_spec (Z.of_nat (String.length out)) 0); [lia | reflexivity].
  - intros Hfit.
    destruct (Z.ltb_spec (Z.of_nat (String.length out)) Bufio.MaxScanTokenSize); [|lia].
    reflexivity.
Qed.

Lemma Scan_too_long (out : string) :
  Bufio.MaxScanTokenSize <= Z.of_nat (String.length (rawLine out)) ->
  Bufio.Scan out = Bufio.ScanErr Bufio.ErrTooLong.
Proof.
  unfold Bufio.Scan, rawLine, Strings.len.
  destruct (Bufio.indexByte out Bufio.newline) as [i|] eqn:Hi.
  - destruct (indexByte_Some _ _ _ Hi) as (Hlt & _ & _).
    rewrite length_take by lia. intros Hbig.
    destruct (Z.ltb_spec (Z.of_nat i) Bufio.MaxScanTokenSize); [lia | reflexivity].
  - intros Hbig.
    destruct (Z.eqb_spec (Z.of_nat (String.length out)) 0) as [H0|_].
    + unfold Bufio.MaxScanTokenSize in Hbig. lia.
    + destruct (Z.ltb_spec (Z.of_nat (String.length out)) Bufio.MaxScanTokenSize);
        [lia | reflexivity].
Qed.












(** ** Start *)

Lemma Index_range (s sep : string) : -1 <= Strings.Index s sep.
Proof. unfold Strings.Index. destruct (Strings.indexNat s sep); lia. Qed.

(** Cutting a service address in at most two parts gives the scheme and
    what follows "://", or the address alone when it has no scheme. *)
Lemma SplitN_address (address : string) :
  Strings.SplitN address "://" 2 =
  match schemeOf address with
  | Some scheme => [scheme; Strings.sliceFrom address (Strings.Index address "://" + 3)]
  | None => [address]
  end.
Proof.
  unfold Strings.SplitN, schemeOf.
  destruct (Z.ltb_spec (Strings.len address + 1) 2) as [Hshort|Hlong].
  - destruct address; [reflexivity | unfold Strings.len in Hshort; simpl in Hshort; lia].
  - change (Z.to_nat (2 - 1)) with 1%nat. cbn [Strings.splitLoop].
    pose proof (Index_range address "://") as Hr.
    destruct (Z.eqb_spec (Strings.Index address "://") (-1)) as [Hm|Hm].
    + rewrite Hm. reflexivity.
    + destruct (Z.ltb_spec (Strings.Index address "://") 0); [lia | reflexivity].
Qed.

(** The scheme is "udp" exactly for the addresses that start with
    "udp://". *)
Lemma schemeOf_udp (address : string) :
  schemeOf address = Some "udp" <-> exists rest, address = "udp://" +:+ rest.
Proof.
  unfold schemeOf, Strings.Index, Strings.sliceTo. split.
  - destruct (Strings.indexNat address "://") as [i|] eqn:Hi; [|discriminate].
    destruct (Z.eqb_spec (Z.of_nat i) (-1)); [lia|]. rewrite Nat2Z.id.
    intros [= Hudp]. pose proof (indexNat_Some _ _ _ Hi) as Hcut.
    rewrite Hudp in Hcut. eexists. exact Hcut.
  - intros [rest ->]. reflexivity.
Qed.

Section StartProperties.

Variable ToLower : string -> string.
Variable listen : string -> ListenOutcome.

(** C8: for a service address whose scheme is absent or is not "udp",
    [Start] returns an error and has not started the listener (nor logged
    that it listens). *)
Theorem C8_scheme_checked_before_listen (shared : GoSNMP) (s : SnmpTrap) :
  schemeOf (ServiceAddress s) <> Some "udp" ->
  exists err,
    (Start ToLower listen shared s).1 = Some err /\
    listenCalls (Start ToLower listen shared s).2 = listenCalls s /\
    Log (Start ToLower listen shared s).2 = Log s.
Proof.
  intros Hscheme. unfold Start. cbn [ParamsVersion].
  match goal with
  | |- context [let '(err, params) := ?c in _] => destruct c as [[e|] params]
  end.
  - eexists; simpl; eauto.
  - change (ServiceAddress (setListener params s)) with (ServiceAddress s).
    rewrite SplitN_address.
    destruct (schemeOf (ServiceAddress s)) as [scheme|]; [|eexists; simpl; eauto].
    destruct (String.eqb_spec scheme "udp") as [->|Hne]; [congruence|].
    eexists; simpl; eauto.
Qed.

(** The [default] branches are taken exactly by the strings outside the
    accepted ones. *)
Ltac case_eqb :=
  repeat match goal with
         | |- context [String.eqb ?a ?b] => destruct (String.eqb_spec a b)
         end.

Lemma secLevelOf_None (l : string) : secLevelOf l = None <-> l ∉ secLevels.
Proof.
  unfold secLevelOf, secLevels. rewrite !not_elem_of_cons.
  case_eqb; simpl; split; intros H; try discriminate; try reflexivity;
    try (repeat split; try assumption; apply not_elem_of_nil); destruct_and?; congruence.
Qed.

Lemma authProtocolOf_None (l : string) : authProtocolOf l = None <-> l ∉ authProtocols.
Proof.
  unfold authProtocolOf, authProtocols. rewrite !not_elem_of_cons.
  case_eqb; simpl; split; intros H; try discriminate; try reflexivity;
    try (repeat split; try assumption; apply not_elem_of_nil); destruct_and?; congruence.
Qed.

Lemma privProtocolOf_None (l : string) : privProtocolOf l = None <-> l ∉ privProtocols.
Proof.
  unfold privProtocolOf, privProtocols. rewrite !not_elem_of_cons.
  case_eqb; simpl; split; intros H; try discriminate; try reflexivity;
    try (repeat split; try assumption; apply not_elem_of_nil); destruct_and?; congruence.
Qed.

(** With version "3", the listener's parameters after [Start] are those
    the V3 block computed, however [Start] ends. *)
Lemma Start_v3 (shared : GoSNMP) (s : SnmpTrap) :
  Version s = "3" ->
  let v3 := configureV3 ToLower s
              {| ParamsVersion := Version3; MsgFlags := MsgFlags shared;
                 SecurityModel := SecurityModel shared;
                 SecurityParameters := SecurityParameters shared |} in
  listener (Start ToLower listen shared s).2 = Some v3.2 /\
  forall err, v3.1 = Some err ->
    (Start ToLower listen shared s).1 = Some err /\
    listenCalls (Start ToLower listen shared s).2 = listenCalls s.
Proof.
  intros Hv v3. unfold Start. cbn [ParamsVersion]. rewrite Hv.
  change (versionOf "3") with Version3. cbv iota. fold v3.
  destruct v3 as [[e|] params]; simpl.
  - split; [reflexivity|]. now intros err [= ->].
  - split; [|discriminate].
    destruct (Strings.SplitN (ServiceAddress s) "://" 2) as [|protocol [|addr [|]]];
      try reflexivity.
    destruct (negb (String.eqb protocol "udp")); [reflexivity|].
    destruct (listen addr); reflexivity.
Qed.
(** C9: with version "3", a security level, authentication protocol or
    privacy protocol that is, in lower case, none of the accepted strings
    makes [Start] return a configuration error without starting the
    listener; an empty setting selects noAuthNoPriv, no authentication and
    no privacy respectively. *)
Theorem C9_v3_settings_validated (shared : GoSNMP) (s : SnmpTrap) :
  Version s = "3" ->
  ToLower "" = "" ->
  (ToLower (SecLevel s) ∉ secLevels \/
   ToLower (AuthProtocol s) ∉ authProtocols \/
   ToLower (PrivProtocol s) ∉ privProtocols ->
   exists err,
     (Start ToLower listen shared s).1 = Some err /\ err ∈ v3Errors s /\
     listenCalls (Start ToLower listen shared s).2 = listenCalls s) /\
  (ToLower (SecLevel s) ∈ secLevels ->
   ToLower (AuthProtocol s) ∈ authProtocols ->
   ToLower (PrivProtocol s) ∈ privProtocols ->
   exists params usm,
     listener (Start ToLower listen shared s).2 = Some params /\
     SecurityParameters params = Some usm /\
     (SecLevel s = "" -> MsgFlags params = NoAuthNoPriv) /\
     (AuthProtocol s = "" -> AuthenticationProtocol usm = NoAuth) /\
     (PrivProtocol s = "" -> PrivacyProtocol usm = NoPriv)).
Proof.
  intros Hv Hempty. destruct (Start_v3 shared s Hv) as [Hlistener Herror].
  unfold configureV3 in Hlistener, Herror. split.
  - intros Hbad.
    rewrite <- secLevelOf_None, <- authProtocolOf_None, <- privProtocolOf_None in Hbad.
    destruct (secLevelOf (ToLower (SecLevel s))) as [flags|].
    2: { destruct (Herror _ eq_refl) as [Herr Hcalls]. eexists; split; [exact Herr|].
         split; [unfold v3Errors; rewrite !elem_of_cons; auto | exact Hcalls]. }
    destruct (authProtocolOf (ToLower (AuthProtocol s))) as [auth|].
    2: { destruct (Herror _ eq_refl) as [Herr Hcalls]. eexists; split; [exact Herr|].
         split; [unfold v3Errors; rewrite !elem_of_cons; auto | exact Hcalls]. }
    destruct (privProtocolOf (ToLower (PrivProtocol s))) as [priv|].
    2: { destruct (Herror _ eq_refl) as [Herr Hcalls]. eexists; split; [exact Herr|].
         split; [unfold v3Errors; rewrite !elem_of_cons; auto | exact Hcalls]. }
    destruct Hbad as [H|[H|H]]; discriminate.
  - intros Hsec Hauth Hpriv.
    destruct (secLevelOf (ToLower (SecLevel s))) as [flags|] eqn:Eflags;
      [|now apply secLevelOf_None in Eflags].
    destruct (authProtocolOf (ToLower (AuthProtocol s))) as [auth|] eqn:Eauth;
      [|now apply authProtocolOf_None in Eauth].
    destruct (privProtocolOf (ToLower (PrivProtocol s))) as [priv|] eqn:Epriv;
      [|now apply privProtocolOf_None in Epriv].
    do 2 eexists. split; [exact Hlistener|]. split; [reflexivity|]. simpl.
    repeat split; intros E; rewrite E, Hempty in *.
    + now injection Eflags.
    + now injection Eauth.
    + now injection Epriv.
Qed.

End StartProperties.

Lemma C8_scheme_checked_before_listen_witness :
  schemeOf (ServiceAddress overTcp) = Some "tcp" /\
  (Start Strings.ToLowerASCII listenOk Default overTcp).1 =
    Some "unknown protocol 'tcp' in 'tcp://:162'" /\
  listenCalls (Start Strings.ToLowerASCII listenOk Default overTcp).2 = [].
Proof.
  split; [reflexivity|].
  destruct (C8_scheme_checked_before_listen Strings.ToLowerASCII listenOk Default overTcp)
    as (err & Herr & Hcalls & _); [discriminate|].
  split; [reflexivity | exact Hcalls].
Defined.

Lemma C9_v3_settings_validated_witness :
  (Start Strings.ToLowerASCII listenOk Default misspeltV3).1 =
    Some "unknown authentication protocol 'SHA-1'" /\
  listenCalls (Start Strings.ToLowerASCII listenOk Default misspeltV3).2 = [] /\
  exists params usm,
    listener (Start Strings.ToLowerASCII listenOk Default emptyV3).2 = Some params /\
    SecurityParameters params = Some usm /\
    MsgFlags params = NoAuthNoPriv /\
    AuthenticationProtocol usm = NoAuth /\ PrivacyProtocol usm = NoPriv.
Proof.
  destruct (C9_v3_settings_validated Strings.ToLowerASCII listenOk Default misspeltV3 eq_refl eq_refl)
    as [Hbad _].
  destruct (C9_v3_settings_validated Strings.ToLowerASCII listenOk Default emptyV3 eq_refl eq_refl)
    as [_ Hgood].
  split; [reflexivity|]. split.
  - destruct Hbad as (err & _ & _ & Hcalls); [|exact Hcalls].
    right; left. apply authProtocolOf_None. reflexivity.
  - destruct Hgood as (params & usm & Hl & Hu & Hs & Ha & Hp);
      [apply list_elem_of_In; vm_compute; tauto ..|].
    exists params, usm. repeat split; auto.
Defined.

(** ** The trap handler *)

Section HandlerProperties.

Variable execCmd : nat -> Z -> string -> list string -> string * option error.

(** The v1 translation hands on the fields [v1Fields] describes. *)
Lemma translateV1_fields (packet : SnmpPacket) (tags tags' : gmap string string)
    (fields : gmap string FieldValue) (s s1 : SnmpTrap) :
  translateV1 execCmd packet ∅ tags s = (Next (fields, tags'), s1) ->
  fields = v1Fields packet.
Proof.
  unfold translateV1, v1Fields.
  destruct (PacketVersion packet); try (intros [= <- _ _]; reflexivity).
  destruct (negb (String.eqb (v1TrapOid packet) "")).
  - destruct (lookup execCmd (v1TrapOid packet) s) as [[e [err|]] s']; [discriminate|].
    intros [= <- _ _]. apply insert_empty.
  - intros [= <- _ _]. apply insert_empty.
Qed.

(** The walk over a list of variables put end to end. *)
Lemma walkVariables_app (pre post : list SnmpPDU) (metricName : string)
    (tags : gmap string string) (s : SnmpTrap) :
  walkVariables execCmd (pre ++ post) metricName tags s =
  match walkVariables execCmd pre metricName tags s with
  | (Next (metricName', tags'), s') => walkVariables execCmd post metricName' tags' s'
  | stopped => stopped
  end.
Proof.
  revert metricName tags s; induction pre as [|v pre IH]; intros metricName tags s.
  - reflexivity.
  - simpl. destruct (walkVariable execCmd v metricName tags s) as [[[mn tg]| |msg] s1];
      [apply IH | reflexivity | reflexivity].
Qed.

(** C1 (as amended): a packet adds no metric or exactly one.  When the walk
    ends without a metric name, the whole packet is logged at error level
    and nothing is added.  When it ends with one, exactly one metric named
    "snmp_trap" is added, stamped with the time of receipt and carrying the
    tags gathered; its fields are the metric name with the value 1 and, for
    a v1 packet, also [sysUpTimeInstance]; for the other versions the metric
    name is its only field. *)
Theorem C1_at_most_one_event (tm : Time) (packet : SnmpPacket) (source : string)
    (s : SnmpTrap) :
  let after := (makeTrapHandler execCmd tm packet source s).2 in
  (acc after = acc s \/ exists m, acc after = (acc s ++ [m])%list) /\
  forall fields tags0 s1 metricName tags s2,
    translateV1 execCmd packet ∅ (initialTags packet source) s = (Next (fields, tags0), s1) ->
    walkVariables execCmd (Variables packet) "" tags0 s1 = (Next (metricName, tags), s2) ->
    (metricName = "" ->
     after = Errorf "parsing packet: %+v" [ArgPacket packet] s2 /\ acc after = acc s) /\
    (metricName <> "" ->
     let m := {| measurement := "snmp_trap";
                 metricFields := <[metricName := FInt 1]> (v1Fields packet);
                 metricTags := tags; metricTime := tm |} in
     acc after = (acc s ++ [m])%list /\ Log after = Log s2 /\
     (PacketVersion packet <> Version1 -> metricFields m = {[metricName := FInt 1]})).
Proof.
  intros after. unfold after. rewrite makeTrapHandler_unfold. split.
  - pose proof (translateV1_quiet execCmd packet ∅ (initialTags packet source) s)
      as (Ha1 & _ & _).
    destruct (translateV1 execCmd packet ∅ (initialTags packet source) s)
      as [[[fields tags0]| |msg] s1]; simpl in Ha1; [|now left ..].
    pose proof (walkVariables_quiet execCmd (Variables packet) "" tags0 s1) as (Ha2 & _ & _).
    destruct (walkVariables execCmd (Variables packet) "" tags0 s1)
      as [[[metricName tags]| |msg] s2]; simpl in Ha2; [|left; simpl; congruence ..].
    destruct (String.eqb metricName ""); simpl.
    + left; congruence.
    + right. eexists. rewrite Ha2, Ha1. reflexivity.
  - intros fields tags0 s1 metricName tags s2 Hv1 Hwalk.
    pose proof (translateV1_quiet execCmd packet ∅ (initialTags packet source) s)
      as (Ha1 & _ & _).
    pose proof (walkVariables_quiet execCmd (Variables packet) "" tags0 s1) as (Ha2 & _ & _).
    pose proof (translateV1_fields _ _ _ _ _ _ Hv1) as ->.
    rewrite Hv1 in *. rewrite Hwalk in *. simpl in Ha1, Ha2.
    destruct (String.eqb_spec metricName "") as [->|Hname]; simpl.
    + split; [intros _ | congruence]. split; [reflexivity | congruence].
    + split; [congruence | intros _]. rewrite Ha2, Ha1. repeat split.
      intros Hver. unfold v1Fields. destruct (PacketVersion packet); try congruence;
        apply insert_empty.
Qed.

(** C6 (as amended): for a v1 packet whose generic trap code is not one of
    0 to 6, no trap OID is derived, no lookup is made and the tags oid, name
    and mib are not set by the v1 translation; the tag agent_address (when
    the packet has an agent address) and the field sysUpTimeInstance are
    set all the same. *)
Theorem C6_undefined_generic_trap (packet : SnmpPacket)
    (fields : gmap string FieldValue) (tags : gmap string string) (s : SnmpTrap) :
  PacketVersion packet = Version1 ->
  ~ (0 <= GenericTrap packet <= 6) ->
  v1TrapOid packet = "" /\
  translateV1 execCmd packet fields tags s =
  (Next (<["sysUpTimeInstance" := FUint (Timestamp packet)]> fields,
         if String.eqb (AgentAddress packet) "" then tags
         else <["agent_address" := AgentAddress packet]> tags), s).
Proof.
  intros Hv1 Hout.
  assert (v1TrapOid packet = "") as Hoid.
  { unfold v1TrapOid.
    destruct (Z.leb_spec 0 (GenericTrap packet)), (Z.ltb_spec (GenericTrap packet) 6),
      (Z.eqb_spec (GenericTrap packet) 6); simpl; try reflexivity; lia. }
  split; [exact Hoid|].
  unfold translateV1. rewrite Hv1, Hoid. simpl.
  destruct (String.eqb (AgentAddress packet) ""); reflexivity.
Qed.

(** A step changes the metric name only at an object-identifier-typed
    variable named snmpTrapOID, and only while no name has been chosen. *)
Lemma walkVariable_name_change (u : SnmpPDU) (name name' : string)
    (tg tg' : gmap string string) (st st' : SnmpTrap) :
  walkVariable execCmd u name tg st = (Next (name', tg'), st') ->
  name' <> name ->
  Type_ u = ObjectIdentifier /\ Name u = snmpTrapOid /\ name = "".
Proof.
  unfold walkVariable.
  destruct (String.eqb (Name u) sysUpTimeOid); [intros [= <- _ _]; congruence|].
  destruct (Z.eqb_spec (Type_ u) ObjectIdentifier) as [Htype|_].
  - destruct (Value u) as [| | |val|]; try discriminate.
    destruct (lookup execCmd val st) as [[e [err|]] st1]; [discriminate|].
    destruct (String.eqb_spec (Name u) snmpTrapOid) as [Hname|_];
      [destruct (String.eqb_spec name "") as [Hempty|_]|]; simpl.
    + intros _ _. auto.
    + intros [= <- _ _]; congruence.
    + intros [= <- _ _]; congruence.
  - destruct (Type_ u =? OctetString).
    + destruct (lookup execCmd (Name u) st) as [[e [err|]] st1]; [discriminate|].
      destruct (Value u); try discriminate. intros [= <- _ _]; congruence.
    + destruct (lookup execCmd (Name u) st) as [[e [err|]] st1]; [discriminate|].
      intros [= <- _ _]; congruence.
Qed.

(** A metric name, once chosen, stays to the end of the walk. *)
Lemma walkVariables_sticky (vars : list SnmpPDU) (name name' : string)
    (tg tg' : gmap string string) (st st' : SnmpTrap) :
  name <> "" ->
  walkVariables execCmd vars name tg st = (Next (name', tg'), st') ->
  name' = name.
Proof.
  revert name tg st; induction vars as [|u vars IH]; intros name tg st Hchosen; simpl.
  - now intros [= <- _ _].
  - destruct (walkVariable execCmd u name tg st) as [[[name1 tg1]| |msg] st1] eqn:Hstep;
      try discriminate.
    intros Hrest.
    assert (name1 = name) as ->.
    { destruct (String.eqb_spec name1 name) as [|Hne]; [assumption|].
      destruct (walkVariable_name_change _ _ _ _ _ _ _ Hstep Hne) as (_ & _ & Hempty).
      contradiction. }
    now apply (IH name tg1 st1).
Qed.

(** Variables other than snmpTrapOID ones leave the metric name alone. *)
Lemma walkVariables_no_trap_var (vars : list SnmpPDU) (name name' : string)
    (tg tg' : gmap string string) (st st' : SnmpTrap) :
  Forall (fun u => isTrapOidVar u = false) vars ->
  walkVariables execCmd vars name tg st = (Next (name', tg'), st') ->
  name' = name.
Proof.
  revert name tg st; induction vars as [|u vars IH]; intros name tg st Hnone; simpl.
  - now intros [= <- _ _].
  - destruct (walkVariable execCmd u name tg st) as [[[name1 tg1]| |msg] st1] eqn:Hstep;
      try discriminate.
    intros Hrest. inversion Hnone as [|? ? Hu Hvars]; subst.
    assert (name1 = name) as ->.
    { destruct (String.eqb_spec name1 name) as [|Hne]; [assumption|].
      destruct (walkVariable_name_change _ _ _ _ _ _ _ Hstep Hne) as (Htype & Hname & _).
      unfold isTrapOidVar in Hu. rewrite Htype, Hname in Hu. discriminate. }
    now apply (IH name tg1 st1).
Qed.

(** C3 (as amended): at an object-identifier-typed variable whose value
    resolves, the resolved name becomes the metric name exactly when the
    variable is named snmpTrapOID and no metric name has been chosen yet;
    the tags oid and mib are then set and the tag name is left as it was.
    Every other such variable sets the tags oid, name and mib and leaves the
    metric name alone.  No other variable changes the metric name; the first
    snmpTrapOID variable of a packet finds no name chosen, and when the name
    it resolves to is not empty, that name stays to the end of the walk. *)
Theorem C3_metric_name_from_snmpTrapOID (v : SnmpPDU) (val : string)
    (metricName : string) (tags : gmap string string) (s s1 : SnmpTrap) (e : mibEntry) :
  Type_ v = ObjectIdentifier ->
  Name v <> sysUpTimeOid ->
  Value v = VString val ->
  lookup execCmd val s = ((e, None), s1) ->
  (Name v = snmpTrapOid -> metricName = "" ->
   let tags' := <["mib" := mibName e]> (<["oid" := val]> tags) in
   walkVariable execCmd v metricName tags s = (Next (oidText e, tags'), s1) /\
   tags' !! "name" = tags !! "name") /\
  (~ (Name v = snmpTrapOid /\ metricName = "") ->
   walkVariable execCmd v metricName tags s =
   (Next (metricName,
          <["mib" := mibName e]> (<["name" := oidText e]> (<["oid" := val]> tags))), s1)) /\
  (forall u name name' tg tg' st st',
     walkVariable execCmd u name tg st = (Next (name', tg'), st') ->
     name' <> name ->
     Type_ u = ObjectIdentifier /\ Name u = snmpTrapOid /\ name = "") /\
  (forall pre post tags0 s0,
     Forall (fun u => isTrapOidVar u = false) pre ->
     Name v = snmpTrapOid ->
     walkVariables execCmd pre "" tags0 s0 = (Next (metricName, tags), s) ->
     metricName = "" /\
     forall final tagsF sF,
       walkVariables execCmd (pre ++ v :: post) "" tags0 s0 = (Next (final, tagsF), sF) ->
       oidText e <> "" -> final = oidText e).
Proof.
  intros Htype Hname Hvalue Hlookup.
  assert (forall b,
            String.eqb (Name v) snmpTrapOid && String.eqb metricName "" = b ->
            walkVariable execCmd v metricName tags s =
            if b then (Next (oidText e, <["mib" := mibName e]> (<["oid" := val]> tags)), s1)
            else (Next (metricName,
                        <["mib" := mibName e]>
                          (<["name" := oidText e]> (<["oid" := val]> tags))), s1)) as Hstep.
  { intros b Hb. unfold walkVariable.
    destruct (String.eqb_spec (Name v) sysUpTimeOid); [contradiction|].
    rewrite Htype. change (ObjectIdentifier =? ObjectIdentifier) with true. cbv iota.
    rewrite Hvalue, Hlookup, Hb. reflexivity. }
  split; [|split; [|split]].
  - intros Htrap Hempty tags'. split.
    + apply (Hstep true). rewrite Htrap, Hempty. reflexivity.
    + unfold tags'. rewrite !lookup_insert_ne by discriminate. reflexivity.
  - intros Hnot. apply (Hstep false).
    destruct (String.eqb_spec (Name v) snmpTrapOid) as [Htrap|_]; [|reflexivity].
    destruct (String.eqb_spec metricName "") as [Hempty|_]; [|reflexivity].
    destruct Hnot. now split.
  - intros u name name' tg tg' st st'. apply walkVariable_name_change.
  - intros pre post tags0 s0 Hnone Htrap Hpre.
    assert (metricName = "") as -> by (eapply walkVariables_no_trap_var; eauto).
    split; [reflexivity|].
    intros final tagsF sF Hwalk Hchosen.
    rewrite walkVariables_app, Hpre in Hwalk. simpl in Hwalk.
    rewrite (Hstep true) in Hwalk by (rewrite Htrap; reflexivity).
    eapply walkVariables_sticky; eauto.
Qed.

End HandlerProperties.

(** ** The properties on the sample data *)

Lemma C1_at_most_one_event_witness :
  let walked := walkVariables sampleExec (Variables linkDownV2) ""
                  (initialTags linkDownV2 "10.0.0.9") freshPlugin in
  acc (makeTrapHandler sampleExec 99 linkDownV2 "10.0.0.9" freshPlugin).2 =
  [{| measurement := "snmp_trap"; metricFields := {["linkDown" := FInt 1]};
      metricTags := walkTags walked; metricTime := 99 |}].
Proof.
  intros walked.
  destruct (C1_at_most_one_event sampleExec 99 linkDownV2 "10.0.0.9" freshPlugin) as [_ H].
  destruct (H ∅ (initialTags linkDownV2 "10.0.0.9") freshPlugin
              "linkDown" (walkTags walked) walked.2) as [_ Hnamed].
  - reflexivity.
  - vm_compute. reflexivity.
  - destruct Hnamed as (Hacc & _ & Hsingle); [discriminate|].
    rewrite Hacc. vm_compute. reflexivity.
Defined.

(** C1 fails as stated: the metric of a v1 packet carries two fields. *)
Lemma C1_counterexample :
  exists m,
    acc (makeTrapHandler sampleExec 99 linkDownV1 "10.0.0.9" freshPlugin).2 = [m] /\
    metricFields m !! "linkDown" = Some (FInt 1) /\
    metricFields m !! "sysUpTimeInstance" = Some (FUint 42) /\
    metricFields m <> {["linkDown" := FInt 1]}.
Proof.
  eexists. split; [vm_compute; reflexivity|].
  split; [vm_compute; reflexivity|]. split; [vm_compute; reflexivity|].
  intros Heq. apply (f_equal (fun fields => fields !! "sysUpTimeInstance")) in Heq.
  vm_compute in Heq. discriminate Heq.
Qed.

Lemma C3_metric_name_from_snmpTrapOID_witness :
  let tags := initialTags linkDownV2 "10.0.0.9" in
  let s1 := (lookup sampleExec ".1.3.6.1.6.3.1.1.5.3" freshPlugin).2 in
  walkVariable sampleExec linkDownVar "" tags freshPlugin =
    (Next ("linkDown", <["mib" := "IF-MIB"]> (<["oid" := ".1.3.6.1.6.3.1.1.5.3"]> tags)), s1) /\
  (<["mib" := "IF-MIB"]> (<["oid" := ".1.3.6.1.6.3.1.1.5.3"]> tags)) !! "name" = None /\
  forall final tagsF sF,
    walkVariables sampleExec [upTimeVar; linkDownVar; ifDescrVar] "" tags freshPlugin =
      (Next (final, tagsF), sF) ->
    final = "linkDown".
Proof.
  intros tags s1.
  destruct (C3_metric_name_from_snmpTrapOID sampleExec linkDownVar ".1.3.6.1.6.3.1.1.5.3"
              "" tags freshPlugin s1 linkDownEntry)
    as (Htrap & _ & _ & Hfirst).
  - reflexivity.
  - discriminate.
  - reflexivity.
  - vm_compute. reflexivity.
  - destruct (Htrap eq_refl eq_refl) as [Hstep Hname].
    split; [exact Hstep|]. split; [vm_compute; reflexivity|].
    intros final tagsF sF Hwalk.
    destruct (Hfirst [upTimeVar] [ifDescrVar] tags freshPlugin) as [_ Hfinal].
    + repeat constructor.
    + reflexivity.
    + reflexivity.
    + apply (Hfinal final tagsF sF Hwalk). discriminate.
Defined.

(** C3 fails as stated: the first snmpTrapOID variable resolves to an empty
    name, and the metric is named by the second one. *)
Lemma C3_counterexample :
  isTrapOidVar emptyNameVar = true /\
  (lookup emptyNameExec ".1.3.9.9" freshPlugin).1 = ({| mibName := "X"; oidText := "" |}, None) /\
  exists m,
    acc (makeTrapHandler emptyNameExec 99 twoTrapOids "10.0.0.9" freshPlugin).2 = [m] /\
    metricFields m = {["linkDown" := FInt 1]}.
Proof.
  split; [reflexivity|]. split; [vm_compute; reflexivity|].
  eexists. split; vm_compute; reflexivity.
Qed.

Lemma C6_undefined_generic_trap_witness :
  v1TrapOid strayV1 = "" /\
  translateV1 sampleExec strayV1 ∅ (initialTags strayV1 "10.0.0.9") freshPlugin =
  (Next ({["sysUpTimeInstance" := FUint 42]},
         <["agent_address" := "192.0.2.1"]> (initialTags strayV1 "10.0.0.9")), freshPlugin).
Proof.
  destruct (C6_undefined_generic_trap sampleExec strayV1 ∅
              (initialTags strayV1 "10.0.0.9") freshPlugin) as [Hoid Hv1].
  - reflexivity.
  - simpl. lia.
  - split; [exact Hoid|]. rewrite Hv1. vm_compute. reflexivity.
Defined.

(** C6 fails as stated: a v1 packet with generic trap code 7 is emitted with
    the tag agent_address and the field sysUpTimeInstance. *)
Lemma C6_counterexample :
  PacketVersion strayV1 = Version1 /\ GenericTrap strayV1 = 7 /\
  exists m,
    acc (makeTrapHandler sampleExec 99 strayV1 "10.0.0.9" freshPlugin).2 = [m] /\
    metricTags m !! "agent_address" = Some "192.0.2.1" /\
    metricFields m !! "sysUpTimeInstance" = Some (FUint 42).
Proof.
  split; [reflexivity|]. split; [reflexivity|].
  eexists. split; [vm_compute; reflexivity|].
  split; vm_compute; reflexivity.
Qed.

(** C10 fails as stated: a packet holds an octet-string-typed variable with
    an integer value, and the handler returns after logging that the name
    of the variable did not resolve; it does not panic. *)
Lemma C10_counterexample :
  In oddOctets (Variables unresolvedPacket) /\
  Type_ oddOctets = OctetString /\ Name oddOctets <> sysUpTimeOid /\
  (forall b, Value oddOctets <> VBytes b) /\
  (makeTrapHandler sampleExec 99 unresolvedPacket "10.0.0.9" freshPlugin).1 = Return /\
  Log (makeTrapHandler sampleExec 99 unresolvedPacket "10.0.0.9" freshPlugin).2 =
  [{| logLevel := LevelError; logFormat := "resolving OID: %s";
      logArgs := [ArgError "run timeout: exit status 2"] |}].
Proof.
  split; [simpl; auto|]. split; [reflexivity|]. split; [discriminate|].
  split; [intros b; discriminate|]. split; vm_compute; reflexivity.
Qed.

(** * Further properties of the plugin *)

(** ** Accounting of external calls *)

Lemma translated_refl (n : nat) (s : SnmpTrap) : translated n s s.
Proof.
  split; [reflexivity|]. exists []. rewrite app_nil_r. simpl.
  repeat split; [lia | constructor | lia].
Qed.

Lemma translated_weaken (n m : nat) (s s' : SnmpTrap) :
  (n <= m)%nat -> translated n s s' -> translated m s s'.
Proof.
  intros Hle (Ht & new & Hcalls & Hlen & Hshape & Hsize).
  split; [exact Ht|]. exists new. repeat split; auto. lia.
Qed.

Lemma translated_trans (n m : nat) (s1 s2 s3 : SnmpTrap) :
  translated n s1 s2 -> translated m s2 s3 -> translated (n + m) s1 s3.
Proof.
  intros (Ht & new & Hcalls & Hlen & Hshape & Hsize)
         (Ht' & new' & Hcalls' & Hlen' & Hshape' & Hsize').
  split; [congruence|]. exists (new ++ new')%list.
  rewrite Hcalls', Hcalls, <- app_assoc, length_app. repeat split.
  - lia.
  - apply Forall_app. split; [exact Hshape|]. now rewrite <- Ht.
  - lia.
Qed.

Lemma translated_log (n : nat) (l : LogLine) (s s' : SnmpTrap) :
  translated n s s' -> translated n s (logLine l s').
Proof. intros H. exact H. Qed.

Section CallAccounting.

Variable execCmd : nat -> Z -> string -> list string -> string * option error.

Lemma translated_lookup (oid : string) (s : SnmpTrap) :
  translated 1 s (lookup execCmd oid s).2 /\
  (is_Some (cache s !! oid) -> (lookup execCmd oid s).2 = s) /\
  (cache s !! oid = None ->
   execCalls (lookup execCmd oid s).2 = (execCalls s ++ [translateCall oid s])%list).
Proof.
  destruct (cache s !! oid) as [e0|] eqn:Hc.
  - rewrite (lookup_hit _ _ _ _ Hc). simpl. split; [apply translated_refl|].
    split; [reflexivity | discriminate].
  - rewrite (lookup_miss _ _ _ Hc). pose proof (snmptranslate_state execCmd oid s) as Hs.
    assert (isTranslateCall (Timeout s) (translateCall oid s)) as Hshape
      by (repeat split; eauto).
    destruct (snmptranslate execCmd oid s) as [[e1 [err|]] s2]; simpl in *; subst s2.
    + split; [|split; [intros [? ?]; discriminate | reflexivity]].
      split; [reflexivity|]. exists [translateCall oid s]. simpl.
      repeat split; [lia | now constructor | lia].
    + split; [|split; [intros [? ?]; discriminate | reflexivity]].
      split; [reflexivity|]. exists [translateCall oid s]. simpl.
      repeat split; [lia | now constructor |].
      rewrite map_size_insert_None by exact Hc. lia.
Qed.

(** However a step of the walk ends, the plugin is left as it was or as
    one lookup left it, with one more error line when the step returns. *)
Lemma walkVariable_shape (v : SnmpPDU) (metricName : string)
    (tags : gmap string string) (s : SnmpTrap) :
  exists s0,
    (s0 = s \/ (Name v <> sysUpTimeOid /\ exists oid, s0 = (lookup execCmd oid s).2)) /\
    (((walkVariable execCmd v metricName tags s).1 = Return /\
      exists format args,
        (walkVariable execCmd v metricName tags s).2 = Errorf format args s0) \/
     ((walkVariable execCmd v metricName tags s).1 <> Return /\
      (walkVariable execCmd v metricName tags s).2 = s0)).
Proof.
  unfold walkVariable.
  destruct (String.eqb_spec (Name v) sysUpTimeOid) as [|Hname].
  { exists s. split; [now left|]. right. split; [discriminate | reflexivity]. }
  destruct (Type_ v =? ObjectIdentifier).
  - destruct (Value v) as [| | |val|];
      try (exists s; split; [now left|]; left; split; [reflexivity | eauto]).
    destruct (lookup execCmd val s) as [[e [err|]] s1] eqn:E; exists s1;
      (split; [right; split; [exact Hname|]; exists val; now rewrite E|]).
    + left. split; [reflexivity | eauto].
    + right. destruct (String.eqb (Name v) snmpTrapOid && String.eqb metricName "");
        split; (discriminate || reflexivity).
  - destruct (Type_ v =? OctetString);
      destruct (lookup execCmd (Name v) s) as [[e [err|]] s1] eqn:E; exists s1;
        (split; [right; split; [exact Hname|]; exists (Name v); now rewrite E|]).
    + left. split; [reflexivity | eauto].
    + right. destruct (Value v); split; (discriminate || reflexivity).
    + left. split; [reflexivity | eauto].
    + right. split; (discriminate || reflexivity).
Qed.

Lemma translateV1_shape (packet : SnmpPacket) (fields : gmap string FieldValue)
    (tags : gmap string string) (s : SnmpTrap) :
  exists s0,
    (s0 = s \/
     (PacketVersion packet = Version1 /\ s0 = (lookup execCmd (v1TrapOid packet) s).2)) /\
    (((translateV1 execCmd packet fields tags s).1 = Return /\
      exists format args,
        (translateV1 execCmd packet fields tags s).2 = Errorf format args s0) \/
     ((translateV1 execCmd packet fields tags s).1 <> Return /\
      (translateV1 execCmd packet fields tags s).2 = s0)).
Proof.
  unfold translateV1.
  destruct (PacketVersion packet) eqn:Hv;
    try (exists s; split; [now left|]; right; split; [discriminate | reflexivity]).
  destruct (negb (String.eqb (v1TrapOid packet) "")).
  - destruct (lookup execCmd (v1TrapOid packet) s) as [[e [err|]] s1] eqn:E; exists s1;
      (split; [right; split; reflexivity|]).
    + left. split; [reflexivity | eauto].
    + right. split; (discriminate || reflexivity).
  - exists s. split; [now left|]. right. split; [discriminate | reflexivity].
Qed.

(** A step of the walk makes at most one external call, and none for the
    sysUpTime variable. *)
Lemma translated_walkVariable (v : SnmpPDU) (metricName : string)
    (tags : gmap string string) (s : SnmpTrap) :
  translated (if isWalked v then 1 else 0) s (walkVariable execCmd v metricName tags s).2.
Proof.
  destruct (walkVariable_shape v metricName tags s) as (s0 & Hs0 & Hend).
  assert (translated (if isWalked v then 1 else 0) s s0) as H0.
  { destruct Hs0 as [->|(Hname & oid & ->)]; [apply translated_refl|].
    unfold isWalked. destruct (String.eqb_spec (Name v) sysUpTimeOid); [contradiction|].
    apply translated_lookup. }
  destruct Hend as [(_ & format & args & ->)|(_ & ->)]; [|exact H0].
  now apply translated_log.
Qed.

Lemma translated_walkVariables (vars : list SnmpPDU) (metricName : string)
    (tags : gmap string string) (s : SnmpTrap) :
  translated (length (List.filter isWalked vars)) s
             (walkVariables execCmd vars metricName tags s).2.
Proof.
  revert metricName tags s; induction vars as [|v vars IH]; intros metricName tags s.
  - apply translated_refl.
  - pose proof (translated_walkVariable v metricName tags s) as Hstep.
    assert (length (List.filter isWalked (v :: vars)) =
            ((if isWalked v then 1 else 0) + length (List.filter isWalked vars))%nat) as ->
      by (simpl; destruct (isWalked v); reflexivity).
    simpl. destruct (walkVariable execCmd v metricName tags s) as [[[mn tg]| |msg] s1];
      simpl in *.
    + eapply translated_trans; [exact Hstep | apply IH].
    + eapply translated_weaken; [|exact Hstep]. lia.
    + eapply translated_weaken; [|exact Hstep]. lia.
Qed.

Lemma translated_translateV1 (packet : SnmpPacket) (fields : gmap string FieldValue)
    (tags : gmap string string) (s : SnmpTrap) :
  translated (v1Lookups packet) s (translateV1 execCmd packet fields tags s).2.
Proof.
  destruct (translateV1_shape packet fields tags s) as (s0 & Hs0 & Hend).
  assert (translated (v1Lookups packet) s s0) as H0.
  { destruct Hs0 as [->|(Hv & ->)]; [apply translated_refl|].
    unfold v1Lookups. rewrite Hv. apply translated_lookup. }
  destruct Hend as [(_ & format & args & ->)|(_ & ->)]; [|exact H0].
  now apply translated_log.
Qed.

Lemma translated_makeTrapHandler (tm : Time) (packet : SnmpPacket) (source : string)
    (s : SnmpTrap) :
  translated (v1Lookups packet + length (List.filter isWalked (Variables packet)))
             s (makeTrapHandler execCmd tm packet source s).2.
Proof.
  rewrite makeTrapHandler_unfold.
  pose proof (translated_translateV1 packet ∅ (initialTags packet source) s) as H1.
  destruct (translateV1 execCmd packet ∅ (initialTags packet source) s)
    as [[[fields tags0]| |msg] s1]; simpl in *;
    try (eapply translated_weaken; [|exact H1]; lia).
  pose proof (translated_walkVariables (Variables packet) "" tags0 s1) as H2.
  pose proof (translated_trans _ _ _ _ _ H1 H2) as H12.
  destruct (walkVariables execCmd (Variables packet) "" tags0 s1)
    as [[[metricName tags]| |msg] s2]; simpl in *; try exact H12.
  destruct (String.eqb metricName ""); exact H12.
Qed.

End CallAccounting.

(** ** What one packet does to the plugin *)

Section PacketProperties.

Variable execCmd : nat -> Z -> string -> list string -> string * option error.

Lemma translated_run (activities : list Activity) (s : SnmpTrap) :
  exists n, translated n s (run execCmd activities s).
Proof.
  revert s; induction activities as [|a activities IH]; intros s; simpl.
  - exists 0%nat. apply translated_refl.
  - destruct (IH (perform execCmd a s)) as [m Hm].
    destruct a as [oid|tm packet source]; simpl in *.
    + eexists. eapply translated_trans; [apply translated_lookup | exact Hm].
    + eexists. eapply translated_trans; [apply translated_makeTrapHandler | exact Hm].
Qed.

(** X1: handling one packet appends to the external calls at most one call
    per variable the walk does not skip, plus one for a v1 packet; every
    call added runs "snmptranslate -Td -Ob -m all <oid>" with the configured
    timeout, and the calls made before stay as they were. *)
Theorem handler_external_calls (tm : Time) (packet : SnmpPacket) (source : string)
    (s : SnmpTrap) :
  exists new,
    execCalls (makeTrapHandler execCmd tm packet source s).2 = (execCalls s ++ new)%list /\
    (length new <= v1Lookups packet + length (List.filter isWalked (Variables packet)))%nat /\
    Forall (isTranslateCall (Timeout s)) new.
Proof.
  destruct (translated_makeTrapHandler execCmd tm packet source s)
    as (_ & new & Hcalls & Hlen & Hshape & _).
  exists new. auto.
Qed.

(** X2: over any run of lookups and packets the cache gains at most one
    entry per external call made, and the timeout setting is not changed. *)
Theorem cache_growth_bounded_by_calls (activities : list Activity) (s : SnmpTrap) :
  let s' := run execCmd activities s in
  (size (cache s') + length (execCalls s) <= size (cache s) + length (execCalls s'))%nat /\
  Timeout s' = Timeout s.
Proof.
  intros s'. destruct (translated_run activities s) as (n & Ht & new & Hcalls & _ & _ & Hsize).
  fold s' in Ht, Hcalls, Hsize. split; [|exact Ht].
  rewrite Hcalls, length_app. lia.
Qed.

(** A step, a walk or a v1 translation that returns has logged exactly one
    error line. *)
Lemma walkVariable_return_logs (v : SnmpPDU) (metricName : string)
    (tags : gmap string string) (s : SnmpTrap) :
  (walkVariable execCmd v metricName tags s).1 = Return ->
  loggedError s (walkVariable execCmd v metricName tags s).2.
Proof.
  destruct (walkVariable_shape execCmd v metricName tags s) as (s0 & Hs0 & Hend).
  intros Hret. destruct Hend as [(_ & format & args & ->)|(Hne & _)]; [|contradiction].
  assert (Log s0 = Log s) as Hlog.
  { destruct Hs0 as [->|(_ & oid & ->)]; [reflexivity|]. apply lookup_frame. }
  eexists. simpl. rewrite Hlog. split; reflexivity.
Qed.

Lemma walkVariables_return_logs (vars : list SnmpPDU) (metricName : string)
    (tags : gmap string string) (s : SnmpTrap) :
  (walkVariables execCmd vars metricName tags s).1 = Return ->
  loggedError s (walkVariables execCmd vars metricName tags s).2.
Proof.
  revert metricName tags s; induction vars as [|v vars IH]; intros metricName tags s; simpl.
  - discriminate.
  - pose proof (walkVariable_return_logs v metricName tags s) as Hret.
    pose proof (walkVariable_silent execCmd v metricName tags s) as Hsil.
    destruct (walkVariable execCmd v metricName tags s) as [[[mn tg]| |msg] s1]; simpl in *.
    + intros Hrest. destruct Hsil as [_ Hlog]; [discriminate|].
      destruct (IH mn tg s1 Hrest) as (l & Hl & Hlevel).
      exists l. split; [congruence | exact Hlevel].
    + intros _. now apply Hret.
    + discriminate.
Qed.

Lemma translateV1_return_logs (packet : SnmpPacket) (fields : gmap string FieldValue)
    (tags : gmap string string) (s : SnmpTrap) :
  (translateV1 execCmd packet fields tags s).1 = Return ->
  loggedError s (translateV1 execCmd packet fields tags s).2.
Proof.
  destruct (translateV1_shape execCmd packet fields tags s) as (s0 & Hs0 & Hend).
  intros Hret. destruct Hend as [(_ & format & args & ->)|(Hne & _)]; [|contradiction].
  assert (Log s0 = Log s) as Hlog.
  { destruct Hs0 as [->|(_ & ->)]; [reflexivity|]. apply lookup_frame. }
  eexists. simpl. rewrite Hlog. split; reflexivity.
Qed.

(** X3: a packet ends in exactly one of three ways.  Either one metric is
    added and nothing is logged; or the handler returns early, nothing is
    added and exactly one line is logged, at error level; or the handler
    panics, and then nothing is added and nothing is logged. *)
Theorem handler_outcomes (tm : Time) (packet : SnmpPacket) (source : string)
    (s : SnmpTrap) :
  let s' := (makeTrapHandler execCmd tm packet source s).2 in
  match (makeTrapHandler execCmd tm packet source s).1 with
  | Next _ => (exists m, acc s' = (acc s ++ [m])%list) /\ Log s' = Log s
  | Return => acc s' = acc s /\ loggedError s s'
  | Panic _ => acc s' = acc s /\ Log s' = Log s
  end.
Proof.
  intros s'. unfold s'. rewrite makeTrapHandler_unfold.
  pose proof (translateV1_quiet execCmd packet ∅ (initialTags packet source) s) as (Ha1 & _).
  pose proof (translateV1_silent execCmd packet ∅ (initialTags packet source) s) as Hs1.
  pose proof (translateV1_return_logs packet ∅ (initialTags packet source) s) as Hr1.
  destruct (translateV1 execCmd packet ∅ (initialTags packet source) s)
    as [[[fields tags0]| |msg] s1]; simpl in *.
  2: { split; [exact Ha1 | now apply Hr1]. }
  2: { split; [exact Ha1 | now apply Hs1]. }
  destruct Hs1 as [_ Hl1]; [discriminate|].
  pose proof (walkVariables_quiet execCmd (Variables packet) "" tags0 s1) as (Ha2 & _).
  pose proof (walkVariables_silent execCmd (Variables packet) "" tags0 s1) as Hs2.
  pose proof (walkVariables_return_logs (Variables packet) "" tags0 s1) as Hr2.
  destruct (walkVariables execCmd (Variables packet) "" tags0 s1)
    as [[[metricName tags]| |msg] s2]; simpl in *.
  - destruct Hs2 as [_ Hl2]; [discriminate|].
    destruct (String.eqb metricName ""); simpl.
    + split; [congruence|]. eexists.
      split; [simpl; rewrite Hl2, Hl1; reflexivity | reflexivity].
    + split; [|congruence]. eexists. rewrite Ha2, Ha1. reflexivity.
  - split; [congruence|]. destruct (Hr2 eq_refl) as (l & Hl & Hlevel).
    exists l. split; [congruence | exact Hlevel].
  - destruct Hs2 as [_ Hl2]; [discriminate|]. split; congruence.
Qed.

(** The walk goes over the sysUpTime variables without a trace. *)
Lemma walkVariables_skips (vars : list SnmpPDU) (metricName : string)
    (tags : gmap string string) (s : SnmpTrap) :
  walkVariables execCmd (List.filter isWalked vars) metricName tags s =
  walkVariables execCmd vars metricName tags s.
Proof.
  revert metricName tags s; induction vars as [|v vars IH]; intros metricName tags s.
  - reflexivity.
  - simpl. unfold isWalked.
    destruct (String.eqb (Name v) sysUpTimeOid) eqn:Hname; simpl.
    + unfold walkVariable. rewrite Hname. apply IH.
    + destruct (walkVariable execCmd v metricName tags s) as [[[mn tg]| |msg] s1];
        [apply IH | reflexivity | reflexivity].
Qed.

(** X4: variables named sysUpTime (.1.3.6.1.2.1.1.3.0) have no effect on
    what a packet does: removing them from the packet leaves the outcome,
    the metrics, the cache and the external calls the same. *)
Theorem handler_ignores_sysUpTime (tm : Time) (packet : SnmpPacket) (source : string)
    (s : SnmpTrap) :
  let stripped := withVariables packet (List.filter isWalked (Variables packet)) in
  let r := makeTrapHandler execCmd tm packet source s in
  let r' := makeTrapHandler execCmd tm stripped source s in
  r'.1 = r.1 /\ acc r'.2 = acc r.2 /\ cache r'.2 = cache r.2 /\
  execCalls r'.2 = execCalls r.2.
Proof.
  intros stripped r r'. unfold r, r'. rewrite !makeTrapHandler_unfold.
  change (translateV1 execCmd stripped ∅ (initialTags stripped source) s)
    with (translateV1 execCmd packet ∅ (initialTags packet source) s).
  destruct (translateV1 execCmd packet ∅ (initialTags packet source) s)
    as [[[fields tags0]| |msg] s1]; try (repeat split; reflexivity).
  change (Variables stripped) with (List.filter isWalked (Variables packet)).
  rewrite walkVariables_skips.
  destruct (walkVariables execCmd (Variables packet) "" tags0 s1)
    as [[[metricName tags]| |msg] s2]; try (repeat split; reflexivity).
  destruct (String.eqb metricName ""); repeat split; reflexivity.
Qed.

(** A lookup that succeeded is answered the same way, without any change
    to the plugin, wherever the cache still holds what it held then. *)
Lemma covers_trans (s1 s2 s3 : SnmpTrap) : covers s1 s2 -> covers s2 s3 -> covers s1 s3.
Proof. unfold covers. auto. Qed.

Lemma quiet_covers (s s' : SnmpTrap) : quiet s s' -> covers s s'.
Proof. intros (_ & _ & H). exact H. Qed.

Lemma lookup_replay (oid : string) (s s1 s2 : SnmpTrap) (e : mibEntry) :
  lookup execCmd oid s = ((e, None), s1) -> covers s1 s2 ->
  lookup execCmd oid s2 = ((e, None), s2).
Proof.
  intros Hok Hcov. apply lookup_hit. apply Hcov. eapply lookup_ok_cached; eauto.
Qed.

Lemma walkVariable_replay (v : SnmpPDU) (metricName : string)
    (tags : gmap string string) (s s1 s2 : SnmpTrap) (r : string * gmap string string) :
  walkVariable execCmd v metricName tags s = (Next r, s1) -> covers s1 s2 ->
  walkVariable execCmd v metricName tags s2 = (Next r, s2).
Proof.
  unfold walkVariable.
  destruct (String.eqb (Name v) sysUpTimeOid); [now intros [= <- <-]|].
  destruct (Type_ v =? ObjectIdentifier); [|destruct (Type_ v =? OctetString)].
  - destruct (Value v) as [| | |val|]; try discriminate.
    destruct (lookup execCmd val s) as [[e [err|]] s'] eqn:E; [discriminate|].
    intros H Hcov.
    assert (s' = s1) as -> by (destruct (_ && _); now injection H).
    rewrite (lookup_replay _ _ _ _ _ E Hcov).
    destruct (_ && _); now injection H as <-.
  - destruct (lookup execCmd (Name v) s) as [[e [err|]] s'] eqn:E; [discriminate|].
    destruct (Value v) eqn:Hvalue; try discriminate.
    intros [= <- <-] Hcov. now rewrite (lookup_replay _ _ _ _ _ E Hcov).
  - destruct (lookup execCmd (Name v) s) as [[e [err|]] s'] eqn:E; [discriminate|].
    intros [= <- <-] Hcov. now rewrite (lookup_replay _ _ _ _ _ E Hcov).
Qed.

Lemma walkVariables_replay (vars : list SnmpPDU) (metricName : string)
    (tags : gmap string string) (s s1 s2 : SnmpTrap) (r : string * gmap string string) :
  walkVariables execCmd vars metricName tags s = (Next r, s1) -> covers s1 s2 ->
  walkVariables execCmd vars metricName tags s2 = (Next r, s2).
Proof.
  revert metricName tags s; induction vars as [|v vars IH]; intros metricName tags s; simpl.
  - now intros [= <- <-].
  - destruct (walkVariable execCmd v metricName tags s) as [[[mn tg]| |msg] s'] eqn:Hstep;
      try discriminate.
    intros Hrest Hcov.
    pose proof (walkVariables_quiet execCmd vars mn tg s') as Hq.
    rewrite Hrest in Hq. apply quiet_covers in Hq.
    rewrite (walkVariable_replay _ _ _ _ _ _ _ Hstep (covers_trans _ _ _ Hq Hcov)).
    now apply (IH mn tg s').
Qed.

Lemma translateV1_replay (packet : SnmpPacket) (fields : gmap string FieldValue)
    (tags : gmap string string) (s s1 s2 : SnmpTrap)
    (r : gmap string FieldValue * gmap string string) :
  translateV1 execCmd packet fields tags s = (Next r, s1) -> covers s1 s2 ->
  translateV1 execCmd packet fields tags s2 = (Next r, s2).
Proof.
  unfold translateV1. destruct (PacketVersion packet); try now intros [= <- <-].
  destruct (negb (String.eqb (v1TrapOid packet) "")); [|now intros [= <- <-]].
  destruct (lookup execCmd (v1TrapOid packet) s) as [[e [err|]] s'] eqn:E; [discriminate|].
  intros [= <- <-] Hcov. now rewrite (lookup_replay _ _ _ _ _ E Hcov).
Qed.

(** X5: a packet that produced a metric produces the same metric (same
    fields and tags, stamped with the new time of receipt) whenever it is
    handled again, whatever lookups and packets came in between, and this
    second handling makes no external call and changes nothing else. *)
Theorem handled_again_from_cache (tm tm' : Time) (packet : SnmpPacket) (source : string)
    (s s1 : SnmpTrap) (activities : list Activity) :
  makeTrapHandler execCmd tm packet source s = (Next tt, s1) ->
  let s2 := run execCmd activities s1 in
  exists fields tags,
    last (acc s1) = Some {| measurement := "snmp_trap"; metricFields := fields;
                            metricTags := tags; metricTime := tm |} /\
    makeTrapHandler execCmd tm' packet source s2 =
      (Next tt, AddFields "snmp_trap" fields tags tm' s2) /\
    execCalls (makeTrapHandler execCmd tm' packet source s2).2 = execCalls s2.
Proof.
  intros Hfirst s2. rewrite makeTrapHandler_unfold in Hfirst.
  destruct (translateV1 execCmd packet ∅ (initialTags packet source) s)
    as [[[fields tags0]| |msg] sa] eqn:Hv1; try discriminate.
  destruct (walkVariables execCmd (Variables packet) "" tags0 sa)
    as [[[metricName tags]| |msg] sb] eqn:Hwalk; try discriminate.
  destruct (String.eqb metricName "") eqn:Hname; [discriminate|].
  injection Hfirst as <-.
  assert (covers sb s2) as Hb.
  { eapply covers_trans; [|intros k e; apply run_keeps]. intros k e H. exact H. }
  assert (covers sa s2) as Ha.
  { eapply covers_trans; [|exact Hb].
    pose proof (walkVariables_quiet execCmd (Variables packet) "" tags0 sa) as Hq.
    rewrite Hwalk in Hq. now apply quiet_covers. }
  exists (<[metricName := FInt 1]> fields), tags.
  assert (makeTrapHandler execCmd tm' packet source s2 =
          (Next tt, AddFields "snmp_trap" (<[metricName := FInt 1]> fields) tags tm' s2)) as Hagain.
  { rewrite makeTrapHandler_unfold, (translateV1_replay _ _ _ _ _ _ _ Hv1 Ha),
      (walkVariables_replay _ _ _ _ _ _ _ Hwalk Hb), Hname. reflexivity. }
  split; [simpl; apply last_snoc|]. split; [exact Hagain|]. now rewrite Hagain.
Qed.

(** Tags are only ever added or overwritten, and a step that changes the
    metric name sets the tags oid and mib. *)
Lemma walkVariable_tags (v : SnmpPDU) (metricName metricName' : string)
    (tags tags' : gmap string string) (s s' : SnmpTrap) :
  walkVariable execCmd v metricName tags s = (Next (metricName', tags'), s') ->
  (forall k, is_Some (tags !! k) -> is_Some (tags' !! k)) /\
  (metricName' <> metricName ->
   is_Some (tags' !! "oid") /\ is_Some (tags' !! "mib")).
Proof.
  unfold walkVariable.
  destruct (String.eqb (Name v) sysUpTimeOid); [intros [= <- <- _]; split; [auto | congruence]|].
  destruct (Type_ v =? ObjectIdentifier); [|destruct (Type_ v =? OctetString)].
  - destruct (Value v) as [| | |val|]; try discriminate.
    destruct (lookup execCmd val s) as [[e [err|]] s1]; [discriminate|].
    destruct (String.eqb (Name v) snmpTrapOid && String.eqb metricName "");
      intros [= <- <- _]; (split; [intros k Hk|intros Hne]);
      rewrite ?lookup_insert_is_Some'; auto 10; congruence.
  - destruct (lookup execCmd (Name v) s) as [[e [err|]] s1]; [discriminate|].
    destruct (Value v); try discriminate.
    intros [= <- <- _]; (split; [intros k Hk|intros Hne]);
      rewrite ?lookup_insert_is_Some'; auto; congruence.
  - destruct (lookup execCmd (Name v) s) as [[e [err|]] s1]; [discriminate|].
    intros [= <- <- _]; (split; [intros k Hk|intros Hne]);
      rewrite ?lookup_insert_is_Some'; auto; congruence.
Qed.

Lemma walkVariables_tags (vars : list SnmpPDU) (metricName metricName' : string)
    (tags tags' : gmap string string) (s s' : SnmpTrap) :
  walkVariables execCmd vars metricName tags s = (Next (metricName', tags'), s') ->
  (forall k, is_Some (tags !! k) -> is_Some (tags' !! k)) /\
  (metricName' <> metricName ->
   is_Some (tags' !! "oid") /\ is_Some (tags' !! "mib")).
Proof.
  revert metricName tags s; induction vars as [|v vars IH]; intros metricName tags s; simpl.
  - intros [= <- <- _]. split; [auto | congruence].
  - destruct (walkVariable execCmd v metricName tags s) as [[[mn tg]| |msg] s1] eqn:Hstep;
      try discriminate.
    intros Hrest. destruct (walkVariable_tags _ _ _ _ _ _ _ Hstep) as [Hgrow1 Hset1].
    destruct (IH _ _ _ Hrest) as [Hgrow2 Hset2].
    split; [auto|]. intros Hne.
    destruct (String.eqb_spec mn metricName) as [->|Hne1]; [now apply Hset2|].
    destruct (Hset1 Hne1). split; auto.
Qed.

Lemma translateV1_tags (packet : SnmpPacket) (fields fields' : gmap string FieldValue)
    (tags tags' : gmap string string) (s s' : SnmpTrap) :
  translateV1 execCmd packet fields tags s = (Next (fields', tags'), s') ->
  (forall k, is_Some (tags !! k) -> is_Some (tags' !! k)) /\
  (PacketVersion packet = Version1 -> AgentAddress packet <> "" ->
   tags' !! "agent_address" = Some (AgentAddress packet)).
Proof.
  unfold translateV1.
  destruct (PacketVersion packet); try (intros [= _ <- _]; split; [auto | discriminate]).
  assert (forall t : gmap string string,
            (forall k, is_Some (tags !! k) -> is_Some (t !! k)) ->
            let t' := if negb (String.eqb (AgentAddress packet) "")
                      then <["agent_address" := AgentAddress packet]> t else t in
            (forall k, is_Some (tags !! k) -> is_Some (t' !! k)) /\
            (Version1 = Version1 -> AgentAddress packet <> "" ->
             t' !! "agent_address" = Some (AgentAddress packet))) as Hagent.
  { intros t Ht t'. unfold t'.
    destruct (String.eqb_spec (AgentAddress packet) ""); simpl; split; auto.
    - congruence.
    - intros k Hk. rewrite lookup_insert_is_Some'. auto.
    - intros _ _. apply lookup_insert_eq. }
  destruct (negb (String.eqb (v1TrapOid packet) "")).
  - destruct (lookup execCmd (v1TrapOid packet) s) as [[e [err|]] s1]; [discriminate|].
    intros [= _ <- _]. apply Hagent. intros k Hk. unfold setTrapOid.
    rewrite !lookup_insert_is_Some'. auto.
  - intros [= _ <- _]. apply Hagent. auto.
Qed.

(** X6: every metric the handler adds carries the tags version, source, oid
    and mib, and a v1 packet with an agent address also carries
    agent_address; the tags version and source are set at the start and no
    tag is ever removed. *)
Theorem emitted_tags_present (tm : Time) (packet : SnmpPacket) (source : string)
    (s s1 : SnmpTrap) :
  makeTrapHandler execCmd tm packet source s = (Next tt, s1) ->
  exists m,
    acc s1 = (acc s ++ [m])%list /\
    is_Some (metricTags m !! "version") /\ is_Some (metricTags m !! "source") /\
    is_Some (metricTags m !! "oid") /\ is_Some (metricTags m !! "mib") /\
    (PacketVersion packet = Version1 -> AgentAddress packet <> "" ->
     is_Some (metricTags m !! "agent_address")).
Proof.
  intros Hfirst. rewrite makeTrapHandler_unfold in Hfirst.
  pose proof (translateV1_quiet execCmd packet ∅ (initialTags packet source) s) as (Ha1 & _).
  destruct (translateV1 execCmd packet ∅ (initialTags packet source) s)
    as [[[fields tags0]| |msg] sa] eqn:Hv1; try discriminate.
  pose proof (walkVariables_quiet execCmd (Variables packet) "" tags0 sa) as (Ha2 & _).
  destruct (walkVariables execCmd (Variables packet) "" tags0 sa)
    as [[[metricName tags]| |msg] sb] eqn:Hwalk; try discriminate.
  destruct (String.eqb_spec metricName "") as [|Hname]; [discriminate|].
  injection Hfirst as <-. simpl in *.
  destruct (translateV1_tags _ _ _ _ _ _ _ Hv1) as [Hgrow1 Hagent].
  destruct (walkVariables_tags _ _ _ _ _ _ _ Hwalk) as [Hgrow2 Hset].
  destruct (Hset Hname) as [Hoid Hmib].
  eexists. split; [rewrite Ha2, Ha1; reflexivity|]. simpl.
  assert (forall k, is_Some (initialTags packet source !! k) -> is_Some (tags !! k)) as Hgrow
    by auto.
  split; [|split; [|split; [exact Hoid | split; [exact Hmib|]]]].
  - apply Hgrow. unfold initialTags. rewrite !lookup_insert_is_Some'. auto.
  - apply Hgrow. unfold initialTags. rewrite !lookup_insert_is_Some'. auto.
  - intros Hv Haddr. apply Hgrow2. rewrite (Hagent Hv Haddr). eauto.
Qed.




(** A generic trap code from 0 to 6 always gives a trap OID. *)
Lemma v1TrapOid_defined (packet : SnmpPacket) :
  0 <= GenericTrap packet <= 6 -> String.eqb (v1TrapOid packet) "" = false.
Proof.
  intros Hrange. unfold v1TrapOid.
  destruct ((0 <=? GenericTrap packet) && (GenericTrap packet <? 6)) eqn:Hstd;
    [reflexivity|].
  destruct (Z.eqb_spec (GenericTrap packet) 6) as [_|Hne].
  - destruct (Enterprise packet); reflexivity.
  - exfalso. apply andb_false_iff in Hstd as [H|H];
      [apply Z.leb_gt in H | apply Z.ltb_ge in H]; lia.
Qed.

(** X8: a v1 packet with a generic trap code from 0 to 6 whose canonical
    trap OID does not resolve is dropped before any of its variables is
    looked at: the handler returns, logs the error once, adds no metric, and
    the failed translation is the only external call. *)
Theorem v1_unresolved_dropped (tm : Time) (packet : SnmpPacket) (source : string)
    (s s1 : SnmpTrap) (e : mibEntry) (err : error) :
  PacketVersion packet = Version1 ->
  0 <= GenericTrap packet <= 6 ->
  lookup execCmd (v1TrapOid packet) s = ((e, Some err), s1) ->
  makeTrapHandler execCmd tm packet source s =
    (Return, Errorf "Error resolving V1 OID: %v" [ArgError err] s1) /\
  acc s1 = acc s /\
  execCalls s1 = (execCalls s ++ [translateCall (v1TrapOid packet) s])%list.
Proof.
  intros Hv Hrange Hfail. split; [|split].
  - rewrite makeTrapHandler_unfold. unfold translateV1.
    rewrite Hv, (v1TrapOid_defined _ Hrange), Hfail. reflexivity.
  - pose proof (lookup_frame execCmd (v1TrapOid packet) s) as (Ha & _).
    now rewrite Hfail in Ha.
  - destruct (lookup_err_inv _ _ _ _ _ _ Hfail) as [_ Htrans].
    pose proof (snmptranslate_state execCmd (v1TrapOid packet) s) as Hs.
    rewrite Htrans in Hs. simpl in Hs. now subst s1.
Qed.

(** ** The cache and its helpers *)

(** X9: a lookup changes the cache at the key looked up at most: every
    other key keeps its entry or its absence, a hit leaves the whole cache
    as it is, and an entry returned without error is the entry stored under
    the key afterwards. *)
Theorem lookup_cache_effect (oid : string) (s : SnmpTrap) :
  (forall k, k <> oid -> cache (lookup execCmd oid s).2 !! k = cache s !! k) /\
  (is_Some (cache s !! oid) -> cache (lookup execCmd oid s).2 = cache s) /\
  (forall e, (lookup execCmd oid s).1 = (e, None) ->
             cache (lookup execCmd oid s).2 !! oid = Some e).
Proof.
  destruct (cache s !! oid) as [e0|] eqn:Hc.
  - rewrite (lookup_hit _ _ _ _ Hc). simpl. repeat split; auto.
    now intros e [= <-].
  - rewrite (lookup_miss _ _ _ Hc). pose proof (snmptranslate_state execCmd oid s) as Hs.
    destruct (snmptranslate execCmd oid s) as [[e1 [err|]] s2]; simpl in *; subst s2; simpl.
    + repeat split; auto; try discriminate; intros [? ?]; discriminate.
    + split; [|split].
      * intros k Hk. now rewrite lookup_insert_ne.
      * intros [? ?]; discriminate.
      * intros e [= <-]. apply lookup_insert_eq.
Qed.

(** X10: an entry put in the cache with [load] is what every later lookup
    of that OID returns, without an external call, whatever lookups and
    packets come in between; [load] leaves the other keys alone. *)
Theorem load_then_lookup (oid : string) (e : mibEntry) (s : SnmpTrap)
    (activities : list Activity) :
  let s2 := run execCmd activities (load oid e s) in
  lookup execCmd oid s2 = ((e, None), s2) /\
  (forall k, k <> oid -> cache (load oid e s) !! k = cache s !! k).
Proof.
  intros s2. split.
  - apply lookup_hit. apply run_keeps. simpl. apply lookup_insert_eq.
  - intros k Hk. simpl. now rewrite lookup_insert_ne.
Qed.

(** X11: after [clear], as after [Init], the cache is empty: the next
    lookup of any OID, cached before or not, runs the external program. *)
Theorem clear_forgets (oid : string) (s : SnmpTrap) :
  cache (clear s) = ∅ /\ cache (Init s) = ∅ /\
  execCalls (lookup execCmd oid (clear s)).2 = (execCalls s ++ [translateCall oid s])%list /\
  execCalls (lookup execCmd oid (Init s)).2 = (execCalls s ++ [translateCall oid s])%list.
Proof.
  split; [reflexivity|]. split; [reflexivity|].
  assert (cache (clear s) !! oid = None) as Hmiss by apply lookup_empty.
  destruct (translated_lookup execCmd oid (clear s)) as (_ & _ & Hcalls).
  split; exact (Hcalls Hmiss).
Qed.

End PacketProperties.

(** ** What a translation result tells about the program's output *)

Lemma Scan_not_too_long (out : string) :
  (forall msg, Bufio.Scan out <> Bufio.ScanErr msg) ->
  Z.of_nat (String.length (rawLine out)) < Bufio.MaxScanTokenSize.
Proof.
  intros Hscan.
  destruct (Z.lt_ge_cases (Z.of_nat (String.length (rawLine out))) Bufio.MaxScanTokenSize)
    as [|Hbig]; [assumption|].
  exfalso. exact (Hscan _ (Scan_too_long _ Hbig)).
Qed.

Lemma Index_firstOccurrence (line sep : string) (i : nat) :
  Strings.indexNat line sep = Some i ->
  firstOccurrence sep line (Strings.take i line)
                  (Strings.drop (i + String.length sep) line).
Proof.
  intros Hi. split; [now apply indexNat_Some|].
  intros before' after' Heq. pose proof (indexNat_first _ _ _ Hi _ _ Heq) as Hle.
  pose proof (indexNat_bound _ _ _ Hi) as Hin. rewrite length_take by lia. exact Hle.
Qed.

(** X12: a translation that succeeds tells that the program ran without
    error, that the first line of its output was shorter than 64 KiB, and
    that this line is the MIB name, "::" and the OID text returned, cut at
    the first "::" of the line. *)
Theorem snmptranslate_success
    (execCmd : nat -> Z -> string -> list string -> string * option error)
    (oid : string) (s s1 : SnmpTrap) (e : mibEntry) :
  snmptranslate execCmd oid s = ((e, None), s1) ->
  exists out,
    execCmd (length (execCalls s)) (Timeout s) "snmptranslate"
            ["-Td"; "-Ob"; "-m"; "all"; oid] = (out, None) /\
    Z.of_nat (String.length (rawLine out)) < Bufio.MaxScanTokenSize /\
    firstLine out = mibName e +:+ "::" +:+ oidText e /\
    firstOccurrence "::" (firstLine out) (mibName e) (oidText e).
Proof.
  unfold snmptranslate.
  destruct (execCmd _ _ _ _) as [out [err|]]; [discriminate|].
  intros Hok. exists out. split; [reflexivity|].
  assert (Z.of_nat (String.length (rawLine out)) < Bufio.MaxScanTokenSize) as Hfit.
  { apply Scan_not_too_long. intros msg Hscan. rewrite Hscan in Hok. discriminate. }
  split; [exact Hfit|].
  rewrite (Scan_fits _ Hfit) in Hok.
  assert (exists text,
            text = firstLine out /\
            (if Strings.Index text "::" =? -1
             then (({| mibName := ""; oidText := text |}, Some "not found"%string),
                   recordExec (translateCall oid s) s)
             else (({| mibName := Strings.sliceTo text (Strings.Index text "::");
                       oidText := Strings.sliceFrom text (Strings.Index text "::" + 2) |},
                    None), recordExec (translateCall oid s) s)) = ((e, None), s1))
    as (text & Htext & Hcut).
  { destruct (Z.eqb_spec (Strings.len out) 0) as [H0|_].
    - exists "". split; [|exact Hok]. destruct out; [reflexivity | discriminate].
    - exists (firstLine out). split; [reflexivity | exact Hok]. }
  rewrite <- Htext. clear Hok Htext.
  destruct (Z.eqb_spec (Strings.Index text "::") (-1)) as [|Hfound]; [discriminate|].
  destruct (Index_found _ _ Hfound) as (i & Hi & Hidx). rewrite Hidx in Hcut.
  injection Hcut as <- _. simpl.
  unfold Strings.sliceTo, Strings.sliceFrom.
  replace (Z.to_nat (Z.of_nat i + 2)) with (i + String.length "::")%nat
    by (simpl; lia).
  rewrite Nat2Z.id.
  pose proof (Index_firstOccurrence _ _ _ Hi) as Hfirst.
  split; [apply Hfirst | exact Hfirst].
Qed.

(** X13: a translation fails in one of three ways only: the program's own
    error is handed on unchanged, the first line is 64 KiB or longer
    (scanner error), or the first line holds no "::" ("not found"). *)
Theorem snmptranslate_failures
    (execCmd : nat -> Z -> string -> list string -> string * option error)
    (oid : string) (s s1 : SnmpTrap) (e : mibEntry) (err : error) :
  snmptranslate execCmd oid s = ((e, Some err), s1) ->
  let answer := execCmd (length (execCalls s)) (Timeout s) "snmptranslate"
                        ["-Td"; "-Ob"; "-m"; "all"; oid] in
  (answer.2 = Some err /\ e = zeroEntry) \/
  (answer.2 = None /\ e = zeroEntry /\
   err = "scaner: bufio.Scanner: token too long" /\
   Bufio.MaxScanTokenSize <= Z.of_nat (String.length (rawLine answer.1))) \/
  (answer.2 = None /\ err = "not found" /\ mibName e = "" /\
   oidText e = firstLine answer.1 /\ absent "::" (firstLine answer.1)).
Proof.
  intros Hfail answer. unfold answer. clear answer. revert Hfail. unfold snmptranslate.
  destruct (execCmd _ _ _ _) as [out [err0|]]; simpl; intros Hfail.
  { left. now injection Hfail as <- <- _. }
  right.
  destruct (Z.lt_ge_cases (Z.of_nat (String.length (rawLine out))) Bufio.MaxScanTokenSize)
    as [Hfit|Hbig].
  - right. rewrite (Scan_fits _ Hfit) in Hfail.
    assert (exists text,
              text = firstLine out /\
              (if Strings.Index text "::" =? -1
               then (({| mibName := ""; oidText := text |}, Some "not found"%string),
                     recordExec (translateCall oid s) s)
               else (({| mibName := Strings.sliceTo text (Strings.Index text "::");
                         oidText := Strings.sliceFrom text (Strings.Index text "::" + 2) |},
                      None), recordExec (translateCall oid s) s)) = ((e, Some err), s1))
      as (text & Htext & Hcut).
    { destruct (Z.eqb_spec (Strings.len out) 0) as [H0|_].
      - exists "". split; [|exact Hfail]. destruct out; [reflexivity | discriminate].
      - exists (firstLine out). split; [reflexivity | exact Hfail]. }
    rewrite <- Htext. clear Hfail Htext.
    destruct (Z.eqb_spec (Strings.Index text "::") (-1)) as [Habs|]; [|discriminate].
    injection Hcut as <- <- _.
    split; [reflexivity|]. split; [reflexivity|]. split; [reflexivity|].
    split; [reflexivity|].
    intros before after. apply indexNat_None. now apply Index_absent.
  - left. rewrite (Scan_too_long _ Hbig) in Hfail.
    injection Hfail as <- <- _.
    split; [reflexivity|]. split; [reflexivity|]. split; [reflexivity | exact Hbig].
Qed.

(** ** Start on an accepted address *)

Lemma SplitN_udp_address (addr : string) :
  Strings.SplitN ("udp://" +:+ addr) "://" 2 = ["udp"; addr].
Proof.
  rewrite SplitN_address. unfold schemeOf.
  assert (Strings.Index ("udp://" +:+ addr) "://" = 3) as -> by reflexivity.
  reflexivity.
Qed.

Lemma versionOf_other (v : string) :
  v <> "3" -> versionOf v = if String.eqb v "1" then Version1 else Version2c.
Proof.
  intros Hv. unfold versionOf.
  destruct (String.eqb_spec v "3"); [contradiction|].
  destruct (String.eqb_spec v "2c") as [->|]; reflexivity.
Qed.

Section StartOnUdp.

Variable ToLower : string -> string.
Variable listen : string -> ListenOutcome.

(** X14: with a version other than "3" and a service address "udp://"
    followed by [addr], [Start] never fails on the configuration: the V3
    settings are not looked at, the version is 1 for "1" and 2c for anything
    else, the listener is started exactly once, on [addr], and the result
    is the listener's: nil with one info line when it listens, its error
    and no log line when it returns first.  Of the shared parameters only
    the version is written: security level, security model and security
    parameters stay what the shared object held on entry (the gosnmp
    defaults for a first [Start], what an earlier V3 [Start] left
    otherwise).  Metrics, cache and external calls are not touched. *)
Theorem Start_listens (shared : GoSNMP) (s : SnmpTrap) (addr : string) :
  Version s <> "3" ->
  ServiceAddress s = "udp://" +:+ addr ->
  let r := Start ToLower listen shared s in
  listenCalls r.2 = (listenCalls s ++ [addr])%list /\
  listener r.2 =
    Some {| ParamsVersion := if String.eqb (Version s) "1" then Version1 else Version2c;
            MsgFlags := MsgFlags shared; SecurityModel := SecurityModel shared;
            SecurityParameters := SecurityParameters shared |} /\
  match listen addr with
  | NowListening =>
      r.1 = None /\
      Log r.2 = (Log s ++ [{| logLevel := LevelInfo; logFormat := "Listening on %s";
                              logArgs := [ArgString (ServiceAddress s)] |}])%list
  | ListenReturned err => r.1 = err /\ Log r.2 = Log s
  end /\
  acc r.2 = acc s /\ cache r.2 = cache s /\ execCalls r.2 = execCalls s.
Proof.
  intros Hv Haddr r. unfold r, Start. cbn [ParamsVersion].
  rewrite (versionOf_other _ Hv).
  assert ((if String.eqb (Version s) "1" then Version1 else Version2c) <> Version3) as Hne
    by (destruct (String.eqb (Version s) "1"); discriminate).
  destruct (if String.eqb (Version s) "1" then Version1 else Version2c) eqn:Hver;
    [| |contradiction]; cbv iota beta;
    change (ServiceAddress (setListener _ s)) with (ServiceAddress s);
    rewrite Haddr, SplitN_udp_address; change (negb (String.eqb "udp" "udp")) with false;
    cbv iota; destruct (listen addr); simpl; rewrite ?Haddr; repeat split.
Qed.

(** The switches of [Start] give each documented name its constant. *)
Ltac by_table H :=
  repeat (apply elem_of_cons in H as [H|H]; [injection H as -> ->; reflexivity|]);
  now apply elem_of_nil in H.

Lemma secLevelOf_names (l : string) (flags : SnmpV3MsgFlags) :
  (l, flags) ∈ secLevelNames -> secLevelOf l = Some flags.
Proof. unfold secLevelNames. intros H. by_table H. Qed.

Lemma authProtocolOf_names (l : string) (auth : SnmpV3AuthProtocol) :
  (l, auth) ∈ authProtocolNames -> authProtocolOf l = Some auth.
Proof. unfold authProtocolNames. intros H. by_table H. Qed.

Lemma privProtocolOf_names (l : string) (priv : SnmpV3PrivProtocol) :
  (l, priv) ∈ privProtocolNames -> privProtocolOf l = Some priv.
Proof. unfold privProtocolNames. intros H. by_table H. Qed.

(** X15: with version "3", a security level, an authentication protocol
    and a privacy protocol that are, in lower case, documented names, and a
    service address "udp://" followed by [addr], [Start] starts the listener
    exactly once, on [addr]; whatever the shared parameters held before,
    they then hold version 3, the user security model, the constants the
    three names stand for, and the configured user name and passphrases.
    The result of [Start] is the listener's. *)
Theorem Start_v3_listens (shared : GoSNMP) (s : SnmpTrap) (addr : string)
    (flags : SnmpV3MsgFlags) (auth : SnmpV3AuthProtocol) (priv : SnmpV3PrivProtocol) :
  Version s = "3" ->
  (ToLower (SecLevel s), flags) ∈ secLevelNames ->
  (ToLower (AuthProtocol s), auth) ∈ authProtocolNames ->
  (ToLower (PrivProtocol s), priv) ∈ privProtocolNames ->
  ServiceAddress s = "udp://" +:+ addr ->
  let r := Start ToLower listen shared s in
  listenCalls r.2 = (listenCalls s ++ [addr])%list /\
  listener r.2 =
    Some {| ParamsVersion := Version3; MsgFlags := flags;
            SecurityModel := UserSecurityModel;
            SecurityParameters :=
              Some {| UserName := SecName s; AuthenticationProtocol := auth;
                      PrivacyProtocol := priv;
                      AuthenticationPassphrase := AuthPassword s;
                      PrivacyPassphrase := PrivPassword s |} |} /\
  r.1 = match listen addr with
        | NowListening => None
        | ListenReturned err => err
        end.
Proof.
  intros Hv Hflags Hauth Hpriv Haddr r. unfold r, Start. cbn [ParamsVersion].
  rewrite Hv. change (versionOf "3") with Version3. cbv iota.
  unfold configureV3.
  rewrite (secLevelOf_names _ _ Hflags), (authProtocolOf_names _ _ Hauth),
    (privProtocolOf_names _ _ Hpriv). cbv iota beta.
  change (ServiceAddress (setListener _ s)) with (ServiceAddress s).
  rewrite Haddr, SplitN_udp_address. change (negb (String.eqb "udp" "udp")) with false.
  cbv iota. destruct (listen addr); simpl; repeat split.
Qed.

End StartOnUdp.

(** ** Packets with and without a trap OID *)

Section TrapOidProperties.

Variable execCmd : nat -> Z -> string -> list string -> string * option error.

(** X16: a packet none of whose variables is an object-identifier-typed
    variable named snmpTrapOID never produces a metric, whatever its version
    and its v1 fields: the handler returns or panics, and the metrics are
    those it found. *)
Theorem no_trap_oid_no_metric (tm : Time) (packet : SnmpPacket) (source : string)
    (s : SnmpTrap) :
  Forall (fun v => isTrapOidVar v = false) (Variables packet) ->
  (makeTrapHandler execCmd tm packet source s).1 <> Next tt /\
  acc (makeTrapHandler execCmd tm packet source s).2 = acc s.
Proof.
  intros Hnone. rewrite makeTrapHandler_unfold.
  pose proof (translateV1_quiet execCmd packet ∅ (initialTags packet source) s) as (Ha1 & _).
  destruct (translateV1 execCmd packet ∅ (initialTags packet source) s)
    as [[[fields tags0]| |msg] s1]; simpl in *; try (split; [discriminate | exact Ha1]).
  pose proof (walkVariables_quiet execCmd (Variables packet) "" tags0 s1) as (Ha2 & _).
  destruct (walkVariables execCmd (Variables packet) "" tags0 s1)
    as [[[metricName tags]| |msg] s2] eqn:Hwalk; simpl in *;
    try (split; [discriminate | congruence]).
  rewrite (walkVariables_no_trap_var _ _ _ _ _ _ _ _ Hnone Hwalk). simpl.
  split; [discriminate | congruence].
Qed.

(** X17: for a v1 packet with a generic trap code from 0 to 6 whose
    canonical trap OID resolves, the v1 translation sets the tag oid to that
    OID and the tags name and mib to its resolution, sets agent_address when
    the packet has an agent address, adds the field sysUpTimeInstance, and
    leaves every other tag as it was. *)
Theorem v1_resolved_tags (packet : SnmpPacket) (fields : gmap string FieldValue)
    (tags : gmap string string) (s s1 : SnmpTrap) (e : mibEntry) :
  PacketVersion packet = Version1 ->
  0 <= GenericTrap packet <= 6 ->
  lookup execCmd (v1TrapOid packet) s = ((e, None), s1) ->
  exists tags',
    translateV1 execCmd packet fields tags s =
      (Next (<["sysUpTimeInstance" := FUint (Timestamp packet)]> fields, tags'), s1) /\
    tags' !! "oid" = Some (v1TrapOid packet) /\
    tags' !! "name" = Some (oidText e) /\
    tags' !! "mib" = Some (mibName e) /\
    tags' !! "agent_address" =
      (if String.eqb (AgentAddress packet) "" then tags !! "agent_address"
       else Some (AgentAddress packet)) /\
    forall k, k <> "oid" -> k <> "name" -> k <> "mib" -> k <> "agent_address" ->
              tags' !! k = tags !! k.
Proof.
  intros Hv Hrange Hok. unfold translateV1.
  rewrite Hv, (v1TrapOid_defined _ Hrange), Hok. cbv iota beta. simpl negb.
  eexists. split; [reflexivity|]. unfold setTrapOid.
  destruct (String.eqb (AgentAddress packet) ""); simpl;
    repeat split; try (intros k H1 H2 H3 H4);
    repeat (rewrite lookup_insert_ne by congruence);
    rewrite ?lookup_insert_eq; reflexivity.
Qed.

End TrapOidProperties.

(** ** The further properties on the sample data *)

Lemma handled_again_from_cache_witness :
  let s1 := (makeTrapHandler sampleExec 99 linkDownV2 "10.0.0.9" freshPlugin).2 in
  let s2 := run sampleExec [DoLookup ".1.3.9"; DoHandle 100 strayV1 "10.0.0.8"] s1 in
  exists fields tags,
    last (acc s1) = Some {| measurement := "snmp_trap"; metricFields := fields;
                            metricTags := tags; metricTime := 99 |} /\
    makeTrapHandler sampleExec 101 linkDownV2 "10.0.0.9" s2 =
      (Next tt, AddFields "snmp_trap" fields tags 101 s2) /\
    execCalls (makeTrapHandler sampleExec 101 linkDownV2 "10.0.0.9" s2).2 = execCalls s2.
Proof.
  intros s1 s2.
  apply (handled_again_from_cache sampleExec 99 101 linkDownV2 "10.0.0.9" freshPlugin s1
           [DoLookup ".1.3.9"; DoHandle 100 strayV1 "10.0.0.8"]).
  vm_compute. reflexivity.
Defined.

Lemma emitted_tags_present_witness :
  let s1 := (makeTrapHandler sampleExec 99 linkDownV1 "10.0.0.9" freshPlugin).2 in
  exists m,
    acc s1 = (acc freshPlugin ++ [m])%list /\
    is_Some (metricTags m !! "version") /\ is_Some (metricTags m !! "source") /\
    is_Some (metricTags m !! "oid") /\ is_Some (metricTags m !! "mib") /\
    (PacketVersion linkDownV1 = Version1 -> AgentAddress linkDownV1 <> "" ->
     is_Some (metricTags m !! "agent_address")).
Proof.
  intros s1.
  apply (emitted_tags_present sampleExec 99 linkDownV1 "10.0.0.9" freshPlugin s1).
  vm_compute. reflexivity.
Defined.


Lemma v1_unresolved_dropped_witness :
  let s1 := recordExec (translateCall ".1.3.6.1.4.1.8072.0.3" freshPlugin) freshPlugin in
  v1TrapOid enterpriseV1 = ".1.3.6.1.4.1.8072.0.3" /\
  makeTrapHandler sampleExec 99 enterpriseV1 "10.0.0.9" freshPlugin =
    (Return, Errorf "Error resolving V1 OID: %v"
               [ArgError "run timeout: exit status 2"] s1) /\
  acc s1 = acc freshPlugin /\
  execCalls s1 =
    (execCalls freshPlugin ++ [translateCall (v1TrapOid enterpriseV1) freshPlugin])%list.
Proof.
  intros s1. split; [reflexivity|].
  apply (v1_unresolved_dropped sampleExec 99 enterpriseV1 "10.0.0.9" freshPlugin s1
           zeroEntry "run timeout: exit status 2").
  - reflexivity.
  - simpl. lia.
  - reflexivity.
Defined.

Lemma snmptranslate_success_witness :
  exists out,
    sampleExec (length (execCalls freshPlugin)) (Timeout freshPlugin) "snmptranslate"
               ["-Td"; "-Ob"; "-m"; "all"; ".1.3.6.1.2.1.2.2.1.2"] = (out, None) /\
    Z.of_nat (String.length (rawLine out)) < Bufio.MaxScanTokenSize /\
    firstLine out = mibName ifDescrEntry +:+ "::" +:+ oidText ifDescrEntry /\
    firstOccurrence "::" (firstLine out) (mibName ifDescrEntry) (oidText ifDescrEntry).
Proof.
  apply (snmptranslate_success sampleExec ".1.3.6.1.2.1.2.2.1.2" freshPlugin
           (recordExec (translateCall ".1.3.6.1.2.1.2.2.1.2" freshPlugin) freshPlugin)
           ifDescrEntry).
  reflexivity.
Defined.

Lemma snmptranslate_failures_witness :
  let answer := sampleExec (length (execCalls freshPlugin)) (Timeout freshPlugin)
                           "snmptranslate" ["-Td"; "-Ob"; "-m"; "all"; ".1.3.9"] in
  (answer.2 = Some "run timeout: exit status 2" /\ zeroEntry = zeroEntry) \/
  (answer.2 = None /\ zeroEntry = zeroEntry /\
   "run timeout: exit status 2" = "scaner: bufio.Scanner: token too long" /\
   Bufio.MaxScanTokenSize <= Z.of_nat (String.length (rawLine answer.1))) \/
  (answer.2 = None /\ "run timeout: exit status 2" = "not found" /\
   mibName zeroEntry = "" /\
   oidText zeroEntry = firstLine answer.1 /\ absent "::" (firstLine answer.1)).
Proof.
  apply (snmptranslate_failures sampleExec ".1.3.9" freshPlugin
           (recordExec (translateCall ".1.3.9" freshPlugin) freshPlugin)
           zeroEntry "run timeout: exit status 2").
  reflexivity.
Defined.

Lemma Start_listens_witness :
  let first := Start Strings.ToLowerASCII listenOk Default validV3 in
  let r := Start Strings.ToLowerASCII listenFails sharedAfterV3 freshPlugin in
  listener first.2 = Some sharedAfterV3 /\
  listenCalls r.2 = [":162"] /\
  listener r.2 =
    Some {| ParamsVersion := Version2c; MsgFlags := AuthPriv;
            SecurityModel := UserSecurityModel;
            SecurityParameters := SecurityParameters sharedAfterV3 |} /\
  r.1 = Some "listen udp: address already in use" /\ Log r.2 = [].
Proof.
  intros first r. split; [reflexivity|].
  destruct (Start_listens Strings.ToLowerASCII listenFails sharedAfterV3 freshPlugin ":162")
    as (Hcalls & Hlistener & Hresult & _).
  - discriminate.
  - reflexivity.
  - split; [exact Hcalls|]. split; [exact Hlistener | exact Hresult].
Defined.

Lemma Start_v3_listens_witness :
  let r := Start Strings.ToLowerASCII listenOk Default validV3 in
  listenCalls r.2 = ["127.0.0.1:1162"] /\
  listener r.2 = Some sharedAfterV3 /\
  r.1 = None.
Proof.
  intros r.
  apply (Start_v3_listens Strings.ToLowerASCII listenOk Default validV3 "127.0.0.1:1162"
           AuthPriv SHA AES).
  - reflexivity.
  - apply list_elem_of_In. simpl. auto.
  - apply list_elem_of_In. simpl. auto.
  - apply list_elem_of_In. simpl. auto.
  - reflexivity.
Defined.

Lemma no_trap_oid_no_metric_witness :
  (makeTrapHandler sampleExec 99 (withVariables linkDownV1 [upTimeVar; ifDescrVar])
                   "10.0.0.9" freshPlugin).1 <> Next tt /\
  acc (makeTrapHandler sampleExec 99 (withVariables linkDownV1 [upTimeVar; ifDescrVar])
                       "10.0.0.9" freshPlugin).2 = acc freshPlugin.
Proof.
  apply (no_trap_oid_no_metric sampleExec 99
           (withVariables linkDownV1 [upTimeVar; ifDescrVar]) "10.0.0.9" freshPlugin).
  repeat constructor.
Defined.

Lemma v1_resolved_tags_witness :
  let s1 := (lookup sampleExec ".1.3.6.1.6.3.1.1.5.3" freshPlugin).2 in
  exists tags',
    translateV1 sampleExec linkDownV1 ∅ (initialTags linkDownV1 "10.0.0.9") freshPlugin =
      (Next (<["sysUpTimeInstance" := FUint 42]> ∅, tags'), s1) /\
    tags' !! "oid" = Some ".1.3.6.1.6.3.1.1.5.3" /\
    tags' !! "name" = Some "linkDown" /\
    tags' !! "mib" = Some "IF-MIB" /\
    tags' !! "agent_address" = Some "192.0.2.1" /\
    forall k, k <> "oid" -> k <> "name" -> k <> "mib" -> k <> "agent_address" ->
              tags' !! k = initialTags linkDownV1 "10.0.0.9" !! k.
Proof.
  intros s1.
  apply (v1_resolved_tags sampleExec linkDownV1 ∅ (initialTags linkDownV1 "10.0.0.9")
           freshPlugin s1 linkDownEntry).
  - reflexivity.
  - simpl. lia.
  - vm_compute. reflexivity.
Defined.

(** ** Tags the walk leaves alone *)

Section UntouchedTags.

Variable execCmd : nat -> Z -> string -> list string -> string * option error.

(** A step writes the tags oid, name and mib or the tag named by the
    resolution it has just made, and no other. *)
Lemma walkVariable_other_tags (v : SnmpPDU) (metricName metricName' : string)
    (tags tags' : gmap string string) (s s' : SnmpTrap) (key : string) :
  walkVariable execCmd v metricName tags s = (Next (metricName', tags'), s') ->
  key <> "oid" -> key <> "name" -> key <> "mib" ->
  (forall k e, cache s' !! k = Some e -> oidText e <> key) ->
  tags' !! key = tags !! key.
Proof.
  unfold walkVariable.
  destruct (String.eqb (Name v) sysUpTimeOid); [now intros [= _ <- _]|].
  destruct (Type_ v =? ObjectIdentifier); [|destruct (Type_ v =? OctetString)].
  - destruct (Value v) as [| | |val|]; try discriminate.
    destruct (lookup execCmd val s) as [[e [err|]] s1]; [discriminate|].
    destruct (String.eqb (Name v) snmpTrapOid && String.eqb metricName "");
      intros [= _ <- _] H1 H2 H3 _; now rewrite !lookup_insert_ne by congruence.
  - destruct (lookup execCmd (Name v) s) as [[e [err|]] s1] eqn:E; [discriminate|].
    destruct (Value v); try discriminate.
    intros [= _ <- <-] _ _ _ Hnames. rewrite lookup_insert_ne; [reflexivity|].
    exact (Hnames _ _ (lookup_ok_cached _ _ _ _ _ E)).
  - destruct (lookup execCmd (Name v) s) as [[e [err|]] s1] eqn:E; [discriminate|].
    intros [= _ <- <-] _ _ _ Hnames. rewrite lookup_insert_ne; [reflexivity|].
    exact (Hnames _ _ (lookup_ok_cached _ _ _ _ _ E)).
Qed.

Lemma walkVariables_other_tags (vars : list SnmpPDU) (metricName metricName' : string)
    (tags tags' : gmap string string) (s s' : SnmpTrap) (key : string) :
  walkVariables execCmd vars metricName tags s = (Next (metricName', tags'), s') ->
  key <> "oid" -> key <> "name" -> key <> "mib" ->
  (forall k e, cache s' !! k = Some e -> oidText e <> key) ->
  tags' !! key = tags !! key.
Proof.
  revert metricName tags s; induction vars as [|v vars IH]; intros metricName tags s; simpl.
  - now intros [= _ <- _].
  - destruct (walkVariable execCmd v metricName tags s) as [[[mn tg]| |msg] s1] eqn:Hstep;
      try discriminate.
    intros Hrest H1 H2 H3 Hnames.
    rewrite (IH _ _ _ Hrest H1 H2 H3 Hnames).
    apply (walkVariable_other_tags _ _ _ _ _ _ _ _ Hstep H1 H2 H3).
    intros k e Hk. apply (Hnames k e).
    pose proof (walkVariables_quiet execCmd vars mn tg s1) as (_ & _ & Hkeep).
    rewrite Hrest in Hkeep. now apply Hkeep.
Qed.

Lemma translateV1_other_tags (packet : SnmpPacket) (fields fields' : gmap string FieldValue)
    (tags tags' : gmap string string) (s s' : SnmpTrap) (key : string) :
  translateV1 execCmd packet fields tags s = (Next (fields', tags'), s') ->
  key <> "oid" -> key <> "name" -> key <> "mib" -> key <> "agent_address" ->
  tags' !! key = tags !! key.
Proof.
  unfold translateV1. destruct (PacketVersion packet); try now intros [= _ <- _].
  destruct (negb (String.eqb (v1TrapOid packet) "")).
  - destruct (lookup execCmd (v1TrapOid packet) s) as [[e [err|]] s1]; [discriminate|].
    unfold setTrapOid. destruct (negb (String.eqb (AgentAddress packet) ""));
      intros [= _ <- _] H1 H2 H3 H4; now rewrite !lookup_insert_ne by congruence.
  - destruct (negb (String.eqb (AgentAddress packet) ""));
      intros [= _ <- _] H1 H2 H3 H4; now rewrite ?lookup_insert_ne by congruence.
Qed.

(** X18: the tags version and source of a metric are the packet's version
    and the sender's address, provided no symbolic name in the cache is
    "version" or "source": a variable that resolves to such a name
    overwrites the tag with its own value. *)
Theorem source_and_version_tags (tm : Time) (packet : SnmpPacket) (source : string)
    (s s1 : SnmpTrap) :
  makeTrapHandler execCmd tm packet source s = (Next tt, s1) ->
  (forall k e, cache s1 !! k = Some e -> oidText e <> "version" /\ oidText e <> "source") ->
  exists m,
    last (acc s1) = Some m /\
    metricTags m !! "version" = Some (SnmpVersion_String (PacketVersion packet)) /\
    metricTags m !! "source" = Some source.
Proof.
  intros Hfirst Hnames. rewrite makeTrapHandler_unfold in Hfirst.
  destruct (translateV1 execCmd packet ∅ (initialTags packet source) s)
    as [[[fields tags0]| |msg] sa] eqn:Hv1; try discriminate.
  destruct (walkVariables execCmd (Variables packet) "" tags0 sa)
    as [[[metricName tags]| |msg] sb] eqn:Hwalk; try discriminate.
  destruct (String.eqb metricName ""); [discriminate|].
  injection Hfirst as <-. simpl in Hnames.
  eexists. split; [simpl; apply last_snoc|]. simpl.
  split.
  - rewrite (walkVariables_other_tags _ _ _ _ _ _ _ "version" Hwalk)
      by (try discriminate; intros k e Hk; apply (Hnames k e Hk)).
    rewrite (translateV1_other_tags _ _ _ _ _ _ _ "version" Hv1) by discriminate.
    unfold initialTags. rewrite lookup_insert_ne by discriminate. apply lookup_insert_eq.
  - rewrite (walkVariables_other_tags _ _ _ _ _ _ _ "source" Hwalk)
      by (try discriminate; intros k e Hk; apply (Hnames k e Hk)).
    rewrite (translateV1_other_tags _ _ _ _ _ _ _ "source" Hv1) by discriminate.
    unfold initialTags. apply lookup_insert_eq.
Qed.

End UntouchedTags.

Lemma source_and_version_tags_witness :
  let s1 := (makeTrapHandler sampleExec 99 linkDownV2 "10.0.0.9" freshPlugin).2 in
  exists m,
    last (acc s1) = Some m /\
    metricTags m !! "version" = Some "2c" /\ metricTags m !! "source" = Some "10.0.0.9".
Proof.
  intros s1.
  apply (source_and_version_tags sampleExec 99 linkDownV2 "10.0.0.9" freshPlugin s1).
  - vm_compute. reflexivity.
  - intros k e Hk.
    assert (e = linkDownEntry \/ e = ifDescrEntry) as [-> | ->]; [|split; discriminate ..].
    assert (cache s1 = <[".1.3.6.1.2.1.2.2.1.2" := ifDescrEntry]>
                         (<[".1.3.6.1.6.3.1.1.5.3" := linkDownEntry]> ∅)) as Hcache
      by (vm_compute; reflexivity).
    rewrite Hcache in Hk.
    apply lookup_insert_Some in Hk as [[_ <-]|[_ Hk]]; [now right|].
    apply lookup_insert_Some in Hk as [[_ <-]|[_ Hk]]; [now left|].
    now rewrite lookup_empty in Hk.
Defined.

(** ** An octet-string-typed variable that does not carry bytes *)

Section OctetStringProperties.

Variable execCmd : nat -> Z -> string -> list string -> string * option error.

(** C10 (as amended): take a packet with an octet-string-typed variable
    (not named sysUpTime) whose value is not a byte slice.  When the walk
    reaches the variable and its name resolves, the handler panics on the
    type assertion: nothing is logged and no metric is added.  When the walk
    reaches it and its name does not resolve, the handler logs "resolving
    OID" and returns, without a panic.  When the v1 translation or an
    earlier variable returns, the handler returns with that one error line
    and no metric, and the variable is not reached.  An
    object-identifier-typed variable whose value is not a string is logged
    and the packet dropped instead. *)
Theorem C10_octet_string_unchecked (tm : Time) (packet : SnmpPacket) (source : string)
    (s : SnmpTrap) (pre post : list SnmpPDU) (v : SnmpPDU) :
  Variables packet = (pre ++ v :: post)%list ->
  Type_ v = OctetString ->
  Name v <> sysUpTimeOid ->
  (forall b, Value v <> VBytes b) ->
  (forall fields tags0 tags metricName e s1 s2 s3,
     translateV1 execCmd packet ∅ (initialTags packet source) s = (Next (fields, tags0), s1) ->
     walkVariables execCmd pre "" tags0 s1 = (Next (metricName, tags), s2) ->
     lookup execCmd (Name v) s2 = ((e, None), s3) ->
     (exists msg, makeTrapHandler execCmd tm packet source s = (Panic msg, s3)) /\
     acc s3 = acc s /\ Log s3 = Log s) /\
  (forall fields tags0 tags metricName e err s1 s2 s3,
     translateV1 execCmd packet ∅ (initialTags packet source) s = (Next (fields, tags0), s1) ->
     walkVariables execCmd pre "" tags0 s1 = (Next (metricName, tags), s2) ->
     lookup execCmd (Name v) s2 = ((e, Some err), s3) ->
     makeTrapHandler execCmd tm packet source s =
       (Return, Errorf "resolving OID: %s" [ArgError err] s3) /\
     acc s3 = acc s /\ Log s3 = Log s) /\
  ((translateV1 execCmd packet ∅ (initialTags packet source) s).1 = Return \/
   (exists fields tags0 s1,
      translateV1 execCmd packet ∅ (initialTags packet source) s = (Next (fields, tags0), s1) /\
      (walkVariables execCmd pre "" tags0 s1).1 = Return) ->
   (makeTrapHandler execCmd tm packet source s).1 = Return /\
   acc (makeTrapHandler execCmd tm packet source s).2 = acc s /\
   loggedError s (makeTrapHandler execCmd tm packet source s).2) /\
  (forall (u : SnmpPDU) (name : string) (tg : gmap string string) (st : SnmpTrap),
     Type_ u = ObjectIdentifier -> Name u <> sysUpTimeOid ->
     (forall val, Value u <> VString val) ->
     walkVariable execCmd u name tg st = (Return, Errorf "getting value OID" [] st)).
Proof.
  intros Hvars Htype Hname Hvalue.
  assert (forall metricName tags s2,
            walkVariable execCmd v metricName tags s2 =
            match lookup execCmd (Name v) s2 with
            | ((e, Some err), s3) =>
                (Return, Errorf "resolving OID: %s" [ArgError err] s3)
            | ((e, None), s3) =>
                (Panic "interface conversion: interface {} is not []uint8", s3)
            end) as Hstep.
  { intros metricName tags s2. unfold walkVariable.
    destruct (String.eqb_spec (Name v) sysUpTimeOid); [contradiction|].
    rewrite Htype. change (OctetString =? ObjectIdentifier) with false.
    change (OctetString =? OctetString) with true. cbv iota.
    destruct (lookup execCmd (Name v) s2) as [[e [err|]] s3]; [reflexivity|].
    destruct (Value v) as [| | | |b]; try reflexivity. now destruct (Hvalue b). }
  assert (forall fields tags0 tags metricName s1 s2 s3 (r : mibEntry * option error),
            translateV1 execCmd packet ∅ (initialTags packet source) s
              = (Next (fields, tags0), s1) ->
            walkVariables execCmd pre "" tags0 s1 = (Next (metricName, tags), s2) ->
            lookup execCmd (Name v) s2 = (r, s3) ->
            acc s3 = acc s /\ Log s3 = Log s) as Hframe.
  { intros fields tags0 tags metricName s1 s2 s3 r Hv1 Hpre Hlookup.
    pose proof (translateV1_silent execCmd packet ∅ (initialTags packet source) s) as H1.
    pose proof (walkVariables_silent execCmd pre "" tags0 s1) as H2.
    pose proof (lookup_frame execCmd (Name v) s2) as (H3 & H4 & _).
    rewrite Hv1 in H1. rewrite Hpre in H2. rewrite Hlookup in H3, H4. simpl in *.
    destruct H1 as [(H1a & _) H1l]; [discriminate|].
    destruct H2 as [(H2a & _) H2l]; [discriminate|].
    split; congruence. }
  split; [|split; [|split]].
  - intros fields tags0 tags metricName e s1 s2 s3 Hv1 Hpre Hlookup.
    split; [|exact (Hframe _ _ _ _ _ _ _ _ Hv1 Hpre Hlookup)].
    eexists. rewrite makeTrapHandler_unfold, Hv1, Hvars, walkVariables_app, Hpre.
    simpl. rewrite Hstep, Hlookup. reflexivity.
  - intros fields tags0 tags metricName e err s1 s2 s3 Hv1 Hpre Hlookup.
    split; [|exact (Hframe _ _ _ _ _ _ _ _ Hv1 Hpre Hlookup)].
    rewrite makeTrapHandler_unfold, Hv1, Hvars, walkVariables_app, Hpre.
    simpl. rewrite Hstep, Hlookup. reflexivity.
  - intros Hearly. rewrite makeTrapHandler_unfold.
    pose proof (translateV1_quiet execCmd packet ∅ (initialTags packet source) s) as (Ha1 & _).
    pose proof (translateV1_silent execCmd packet ∅ (initialTags packet source) s) as Hs1.
    pose proof (translateV1_return_logs execCmd packet ∅ (initialTags packet source) s) as Hr1.
    destruct Hearly as [Hret|(fields & tags0 & s1 & Hv1 & Hret)].
    + destruct (translateV1 execCmd packet ∅ (initialTags packet source) s)
        as [[[fields tags0]| |msg] s1]; simpl in *; try discriminate.
      split; [reflexivity|]. split; [exact Ha1 | now apply Hr1].
    + rewrite Hv1 in *. simpl in *. destruct Hs1 as [_ Hl1]; [discriminate|].
      rewrite Hvars, walkVariables_app.
      pose proof (walkVariables_quiet execCmd pre "" tags0 s1) as (Ha2 & _).
      pose proof (walkVariables_return_logs execCmd pre "" tags0 s1 Hret) as (l & Hl & Hlevel).
      destruct (walkVariables execCmd pre "" tags0 s1) as [[[mn tg]| |msg] s2];
        simpl in *; try discriminate.
      split; [reflexivity|]. split; [congruence|].
      exists l. split; [congruence | exact Hlevel].
  - intros u name tg st Hu Hnu Hval. unfold walkVariable.
    destruct (String.eqb_spec (Name u) sysUpTimeOid); [contradiction|].
    rewrite Hu. change (ObjectIdentifier =? ObjectIdentifier) with true. cbv iota.
    destruct (Value u) as [| | |val|]; try reflexivity. now destruct (Hval val).
Qed.

End OctetStringProperties.

Lemma C10_octet_string_unchecked_witness :
  let tags0 := initialTags oddPacket "10.0.0.9" in
  let reached := walkVariables sampleExec [linkDownVar] "" tags0 freshPlugin in
  let s3 := (lookup sampleExec (Name oddDescr) reached.2).2 in
  let t3 := (lookup sampleExec (Name oddOctets) reached.2).2 in
  ((exists msg,
      makeTrapHandler sampleExec 99 oddPacket "10.0.0.9" freshPlugin = (Panic msg, s3)) /\
   acc s3 = [] /\ Log s3 = []) /\
  makeTrapHandler sampleExec 99 unresolvedPacket "10.0.0.9" freshPlugin =
    (Return, Errorf "resolving OID: %s" [ArgError "run timeout: exit status 2"] t3).
Proof.
  intros tags0 reached s3 t3. split.
  - destruct (C10_octet_string_unchecked sampleExec 99 oddPacket "10.0.0.9" freshPlugin
                [linkDownVar] [] oddDescr) as (Hpanic & _).
    + reflexivity.
    + reflexivity.
    + discriminate.
    + intros b. discriminate.
    + apply (Hpanic ∅ tags0 (walkTags reached) "linkDown" ifDescrEntry
               freshPlugin reached.2 s3).
      * reflexivity.
      * vm_compute. reflexivity.
      * vm_compute. reflexivity.
  - destruct (C10_octet_string_unchecked sampleExec 99 unresolvedPacket "10.0.0.9"
                freshPlugin [linkDownVar] [] oddOctets) as (_ & Hdropped & _).
    + reflexivity.
    + reflexivity.
    + discriminate.
    + intros b. discriminate.
    + apply (Hdropped ∅ tags0 (walkTags reached) "linkDown" zeroEntry
               "run timeout: exit status 2" freshPlugin reached.2 t3).
      * reflexivity.
      * vm_compute. reflexivity.
      * vm_compute. reflexivity.
Defined.
